(** * MOSDAC help bot: knowledge-graph browser and rule-based query responder

    A shallow embedding of the two components that carry logic:

    - [KnowledgeGraph] (the node/edge catalog, the search box, the edge
      layer of the SVG and the node details panel), and
    - [ChatInterface] ([simulateAIResponse], the keyword cascade that
      builds the bot's reply).

    Around them: the node layer, events and metadata card of the graph
    browser ([GraphView]), the chat window with its input, timers and
    bubbles ([ChatSession]), the content table's filter ([ContentManager])
    and the tab bar ([App]).

    JavaScript strings are modelled as [string]; the case mapping is the
    one [String.prototype.toLowerCase] performs on 7-bit text (A-Z to a-z,
    everything else fixed), which covers the catalog and every keyword.
    React state is an explicit record, and an event handler is a function
    from state to state that also runs the effect the handler triggers. *)

From Stdlib Require Import String Ascii List ZArith QArith Lia DecimalString.
From stdpp Require Import base list strings gmap.
Import ListNotations.

Open Scope string_scope.

(** ** JavaScript primitives used by the components *)

Module JS.

(** One character of [toLowerCase]: 'A'..'Z' are moved to 'a'..'z'. *)
Definition lower_char (c : ascii) : ascii :=
  let n := nat_of_ascii c in
  if (65 <=? n)%nat && (n <=? 90)%nat then ascii_of_nat (n + 32) else c.

(** [s.toLowerCase()] *)
Fixpoint toLowerCase (s : string) : string :=
  match s with
  | EmptyString => EmptyString
  | String c s' => String (lower_char c) (toLowerCase s')
  end.

(** [s.includes(t)]: [t] occurs in [s] at some position. *)
Fixpoint includes (s t : string) : bool :=
  String.prefix t s ||
  match s with
  | EmptyString => false
  | String _ s' => includes s' t
  end.

(** Truthiness of a string: only the empty string is falsy. *)
Definition truthy (s : string) : bool :=
  match s with
  | EmptyString => false
  | String _ _ => true
  end.

(** [s.split(sep)] for a one-character separator. *)
Fixpoint split (sep : ascii) (s : string) : list string :=
  match s with
  | EmptyString => [EmptyString]
  | String c s' =>
      if Ascii.eqb c sep then EmptyString :: split sep s'
      else match split sep s' with
           | [] => [String c EmptyString]
           | h :: t => String c h :: t
           end
  end.

(** [`${a[0]}`]: the first element as interpolated into a template
    literal; an absent element prints as [undefined]. *)
Definition first_interpolated (a : list string) : string :=
  match a with
  | [] => "undefined"
  | h :: _ => h
  end.

(** Values found in the [any]-typed [metadata] objects. *)
#[warnings="-register-all"]
Inductive value : Type :=
| Str (s : string)
| Num (q : Q)
| Bool (b : bool)
| Arr (l : list value).

(** An object literal, as its properties in source order. *)
Definition object : Type := list (string * value).

(** [o.key]; [None] is [undefined]. *)
Fixpoint get (o : object) (key : string) : option value :=
  match o with
  | [] => None
  | (k, v) :: o' => if String.eqb k key then Some v else get o' key
  end.

(** [n.toString()] for an integer. *)
Definition toString (n : Z) : string := NilZero.string_of_int (Z.to_int n).

(** Two strings that differ only in the case of their letters. *)
Inductive case_variant : string -> string -> Prop :=
| cv_nil : case_variant EmptyString EmptyString
| cv_cons c d s t :
    lower_char c = lower_char d -> case_variant s t ->
    case_variant (String c s) (String d t).

(** A string made of blanks only (space, tab, line feed, carriage
    return), as [trim] would empty it. *)
Definition blank_char (c : ascii) : bool :=
  Ascii.eqb c " " || Ascii.eqb c "009" || Ascii.eqb c "010" || Ascii.eqb c "013".

Fixpoint whitespace_only (s : string) : bool :=
  match s with
  | EmptyString => true
  | String c s' => blank_char c && whitespace_only s'
  end.

End JS.

(** ** The knowledge-graph browser *)

Module KnowledgeGraph.

Inductive NodeType := mission | product | document | location | user | process.

(** The runtime string of a node type. *)
Definition type_name (t : NodeType) : string :=
  match t with
  | mission => "mission"
  | product => "product"
  | document => "document"
  | location => "location"
  | user => "user"
  | process => "process"
  end.

Inductive EdgeType := provides | contains | processes | accesses | related.

Definition edge_type_name (t : EdgeType) : string :=
  match t with
  | provides => "provides"
  | contains => "contains"
  | processes => "processes"
  | accesses => "accesses"
  | related => "related"
  end.

Record Node := {
  id : string;
  label : string;
  type : NodeType;
  x : Z;
  y : Z;
  connections : list string;
  metadata : JS.object
}.

(** An edge; its [label] and [type] are [edge_label] and [edge_type] here,
    the plain names being taken by the fields of [Node]. *)
Record Edge := {
  from : string;
  to : string;
  edge_label : string;
  edge_type : EdgeType
}.

(** The component's state: the three [useState] cells. *)
Record State := {
  selectedNode : option Node;
  searchTerm : string;
  filteredNodes : list Node
}.

(** An SVG line of the edge layer. *)
Record Line := {
  key : nat;
  x1 : Z; y1 : Z; x2 : Z; y2 : Z;
  stroke : string;
  strokeWidth : string;
  strokeDasharray : string
}.

(** A row of the Connections card: the colour class of the dot and the
    text beside it. *)
Record ConnectionRow := {
  dot : string;
  text : string
}.

(** A row of the Relationships card. *)
Record RelationshipRow := {
  rel_type : string;
  rel_label : string
}.

(** The details panel of a selected node. *)
Record Details := {
  title : string;
  subtitle : string;
  connectionRows : list ConnectionRow;
  relationshipRows : list RelationshipRow
}.

Definition getNodeColor (type : string) : string :=
  if String.eqb type "mission" then "bg-blue-500 border-blue-400"
  else if String.eqb type "product" then "bg-green-500 border-green-400"
  else if String.eqb type "document" then "bg-orange-500 border-orange-400"
  else if String.eqb type "location" then "bg-purple-500 border-purple-400"
  else if String.eqb type "user" then "bg-pink-500 border-pink-400"
  else if String.eqb type "process" then "bg-yellow-500 border-yellow-400"
  else "bg-gray-500 border-gray-400".

Section Catalog.

(** The catalog the component closes over. *)
Variable nodes : list Node.
Variable edges : list Edge.

(** [nodes.find(n => n.id === i)] *)
Definition findNode (i : string) : option Node :=
  List.find (fun n => String.eqb (id n) i) nodes.

(** The body of the effect: the filter of the catalog by the term. *)
Definition filterNodes (term : string) : list Node :=
  List.filter
    (fun node =>
       JS.includes (JS.toLowerCase (label node)) (JS.toLowerCase term) ||
       JS.includes (JS.toLowerCase (type_name (type node))) (JS.toLowerCase term))
    nodes.

(** [useEffect(..., [searchTerm])]: stores the filter in the state. *)
Definition effect (s : State) : State :=
  {| selectedNode := selectedNode s;
     searchTerm := searchTerm s;
     filteredNodes := filterNodes (searchTerm s) |}.

(** The state after the first render: the initial cells, then the
    effect, which runs once on mount. *)
Definition mount : State :=
  effect {| selectedNode := None; searchTerm := ""; filteredNodes := [] |}.

(** The search box's [onChange]: [setSearchTerm(t)].  An unchanged term
    leaves the state as it is (no render, no effect); a changed one is
    rendered and the effect, which depends on the term, runs. *)
Definition setSearchTerm (t : string) (s : State) : State :=
  if String.eqb t (searchTerm s) then s
  else effect {| selectedNode := selectedNode s;
                 searchTerm := t;
                 filteredNodes := filteredNodes s |}.

(** A circle's [onClick]: [setSelectedNode(node)]. *)
Definition setSelectedNode (n : Node) (s : State) : State :=
  {| selectedNode := Some n;
     searchTerm := searchTerm s;
     filteredNodes := filteredNodes s |}.

(** The states the component can be in. *)
Inductive reachable : State -> Prop :=
| reach_mount : reachable mount
| reach_search t s : reachable s -> reachable (setSearchTerm t s)
| reach_select n s : reachable s -> reachable (setSelectedNode n s).

(** [(searchTerm ? filteredNodes : nodes)]: the nodes drawn. *)
Definition visibleNodes (s : State) : list Node :=
  if JS.truthy (searchTerm s) then filteredNodes s else nodes.

(** What the user sees after typing [term] into the search box, once
    the effect the change triggers has run. *)
Definition search (s : State) (term : string) : list Node :=
  visibleNodes (setSearchTerm term s).

Definition renderEdge (index : nat) (edge : Edge) : option Line :=
  match findNode (from edge), findNode (to edge) with
  | Some fromNode, Some toNode =>
      Some {| key := index;
              x1 := x fromNode + 40;
              y1 := y fromNode + 40;
              x2 := x toNode + 40;
              y2 := y toNode + 40;
              stroke := "rgba(59, 130, 246, 0.3)";
              strokeWidth := "2";
              strokeDasharray :=
                if String.eqb (edge_type_name (edge_type edge)) "related"
                then "5,5" else "none" |}
  | _, _ => None
  end.

(** [renderEdges()]: one entry per edge, [None] where the source
    returns [null]. *)
Definition renderEdges : list (option Line) := imap renderEdge edges.

(** One row of [selectedNode.connections.map(...)]. *)
Definition renderConnection (connectionId : string) : ConnectionRow :=
  match findNode connectionId with
  | Some connectedNode =>
      {| dot := JS.first_interpolated
                  (JS.split " " (getNodeColor (type_name (type connectedNode))));
         text := label connectedNode |}
  | None => {| dot := "bg-gray-500"; text := connectionId |}
  end.

(** [edges.filter(edge => edge.from === i || edge.to === i)] *)
Definition incidentEdges (i : string) : list Edge :=
  List.filter (fun edge => String.eqb (from edge) i || String.eqb (to edge) i) edges.

Definition renderRelationship (edge : Edge) : RelationshipRow :=
  {| rel_type := edge_type_name (edge_type edge); rel_label := edge_label edge |}.

(** The details panel for the selected node. *)
Definition renderDetails (sel : Node) : Details :=
  {| title := label sel;
     subtitle := type_name (type sel);
     connectionRows := map renderConnection (connections sel);
     relationshipRows := map renderRelationship (incidentEdges (id sel)) |}.

(** The ids joined to [i] by an edge incident to it: the far end of
    every edge that starts or ends at [i].  This is the derived view
    the specification describes; the component has no such function. *)
Definition neighbours (i : string) : list string :=
  flat_map
    (fun edge =>
       ((if String.eqb (from edge) i then [to edge] else []) ++
        (if String.eqb (to edge) i then [from edge] else []))%list)
    edges.

Definition neighbourSet (i : string) : gset string := list_to_set (neighbours i).

(** An edge one of whose ends names no node. *)
Definition dangling (edge : Edge) : Prop :=
  findNode (from edge) = None \/ findNode (to edge) = None.

End Catalog.

Definition connectionSet (n : Node) : gset string := list_to_set (connections n).

(** The catalog written into the component. *)
Definition nodes : list Node :=
  [ {| id := "insat3d"; label := "INSAT-3D"; type := mission; x := 200; y := 150;
       connections := ["imager_data"; "sounder_data"; "meteorology"];
       metadata := [("launch", JS.Str "2013"); ("status", JS.Str "Active");
                    ("orbit", JS.Str "Geostationary")] |};
    {| id := "scatsat1"; label := "SCATSAT-1"; type := mission; x := 400; y := 100;
       connections := ["scatterometer_data"; "ocean_winds"; "weather"];
       metadata := [("launch", JS.Str "2016"); ("status", JS.Str "Active");
                    ("orbit", JS.Str "Polar")] |};
    {| id := "oceansat2"; label := "Oceansat-2"; type := mission; x := 600; y := 180;
       connections := ["ocm_data"; "ocean_color"; "coastal_monitoring"];
       metadata := [("launch", JS.Str "2009"); ("status", JS.Str "Active");
                    ("orbit", JS.Str "Sun-synchronous")] |};
    {| id := "imager_data"; label := "Imager Data"; type := product; x := 150; y := 300;
       connections := ["meteorology"; "weather_forecasting"];
       metadata := [("resolution", JS.Str "1km-4km"); ("bands", JS.Str "6 channels");
                    ("format", JS.Str "HDF5")] |};
    {| id := "scatterometer_data"; label := "Scatterometer Data"; type := product;
       x := 400; y := 280;
       connections := ["ocean_winds"; "weather"];
       metadata := [("resolution", JS.Str "25km"); ("swath", JS.Str "1400km");
                    ("format", JS.Str "NetCDF")] |};
    {| id := "ocm_data"; label := "OCM Data"; type := product; x := 650; y := 320;
       connections := ["ocean_color"; "coastal_monitoring"];
       metadata := [("resolution", JS.Str "360m"); ("bands", JS.Str "8 channels");
                    ("format", JS.Str "HDF4")] |};
    {| id := "user_manual"; label := "User Manual"; type := document; x := 100; y := 450;
       connections := ["imager_data"; "data_processing"];
       metadata := [("pages", JS.Num 156); ("version", JS.Str "2.1");
                    ("format", JS.Str "PDF")] |};
    {| id := "api_doc"; label := "API Documentation"; type := document; x := 300; y := 480;
       connections := ["data_access"; "developers"];
       metadata := [("endpoints", JS.Num 12); ("version", JS.Str "1.3");
                    ("format", JS.Str "HTML")] |};
    {| id := "faq"; label := "FAQ Database"; type := document; x := 500; y := 450;
       connections := ["user_support"; "common_issues"];
       metadata := [("questions", JS.Num 247); ("categories", JS.Num 8);
                    ("updated", JS.Str "2024-01-15")] |};
    {| id := "indian_ocean"; label := "Indian Ocean"; type := location; x := 750; y := 400;
       connections := ["oceansat2"; "scatsat1"];
       metadata := [("area", JS.Str "70.6M km²"); ("coverage", JS.Str "Full");
                    ("sensors", JS.Arr [JS.Str "OCM"; JS.Str "Scatterometer"])] |} ].

Definition edges : list Edge :=
  [ {| from := "insat3d"; to := "imager_data"; edge_label := "generates";
       edge_type := provides |};
    {| from := "scatsat1"; to := "scatterometer_data"; edge_label := "produces";
       edge_type := provides |};
    {| from := "oceansat2"; to := "ocm_data"; edge_label := "captures";
       edge_type := provides |};
    {| from := "imager_data"; to := "user_manual"; edge_label := "documented in";
       edge_type := contains |};
    {| from := "scatterometer_data"; to := "api_doc"; edge_label := "accessible via";
       edge_type := accesses |};
    {| from := "ocm_data"; to := "indian_ocean"; edge_label := "covers";
       edge_type := related |};
    {| from := "scatsat1"; to := "indian_ocean"; edge_label := "monitors";
       edge_type := related |} ].

(** A catalog variant with one more edge, whose target names no node. *)
Definition ghostEdge : Edge :=
  {| from := "insat3d"; to := "ghost"; edge_label := "tracks"; edge_type := related |}.

Definition edgesWithGhost : list Edge := (edges ++ [ghostEdge])%list.

End KnowledgeGraph.

(** ** The chat responder *)

Module ChatInterface.

Inductive Sender := user | bot.

Inductive MessageType := text | query_analysis | geospatial | document.

Record Message := {
  id : string;
  content : string;
  sender : Sender;
  timestamp : Z;
  type : option MessageType;
  metadata : option JS.object
}.

(** The canned bodies, as the template literals spell them. *)
Definition productContent : string :=
  "Based on our knowledge graph analysis, I found several satellite data products relevant to your query. MOSDAC hosts data from multiple missions including INSAT-3D, SCATSAT-1, and Oceansat-2. Here are the key products:

• **INSAT-3D Imager Data**: High-resolution meteorological imagery
• **SCATSAT-1 Scatterometer**: Ocean wind vector data
• **Oceansat-2 OCM**: Ocean color and coastal zone monitoring

Would you like specific information about any of these products, including download procedures or technical specifications?".

Definition procedureContent : string :=
  "To download data from MOSDAC, you'll need to follow these steps:

1. **Registration**: Create an account on the MOSDAC portal
2. **Data Search**: Use the catalog to find your required datasets
3. **Request Submission**: Submit a data request with your requirements
4. **Approval Process**: Wait for approval (usually 24-48 hours)
5. **Download**: Access your approved data through the user dashboard

For bulk downloads or automated access, you can use our API services. Would you like me to provide the API documentation or help with a specific data request?".

Definition geospatialContent : string :=
  "I can help you find satellite data for specific geographical locations. Our geospatial intelligence system can identify relevant datasets based on:

🗺️ **Spatial Coverage**: Data available for your area of interest
📊 **Temporal Range**: Time series data availability
🛰️ **Sensor Types**: Optical, radar, and microwave sensors
🎯 **Resolution**: From 1km to 25m spatial resolution

Please provide your area of interest (coordinates, place name, or region) and I'll identify the most suitable datasets and their availability.".

Definition generalContentHead : string :=
  "I understand you're looking for information about ".

Definition generalContentTail : string :=
  ". Let me search through our comprehensive knowledge base covering:

• **Product Documentation**: Technical specifications and user guides
• **FAQ Database**: Common questions and solutions
• **Mission Information**: Satellite mission details and objectives
• **Data Processing**: Algorithms and processing levels
• **Support Materials**: Tutorials and training resources

Could you please provide more specific details about what you're looking for? This will help me give you more targeted information.".

(** The double quote character that surrounds the echoed query. *)
Definition quote : string := String "034"%char EmptyString.

(** The fallback body: the query is echoed as typed, between quotes. *)
Definition generalContent (userQuery : string) : string :=
  generalContentHead ++ quote ++ userQuery ++ quote ++ generalContentTail.

Definition productMetadata : JS.object :=
  [ ("entities", JS.Arr [JS.Str "INSAT-3D"; JS.Str "SCATSAT-1"; JS.Str "Oceansat-2"]);
    ("intent", JS.Str "product_inquiry");
    ("confidence", JS.Num 0.92) ].

Definition procedureMetadata : JS.object :=
  [ ("procedure", JS.Str "data_download");
    ("steps", JS.Num 5) ].

Definition geospatialMetadata : JS.object :=
  [ ("spatialQuery", JS.Bool true);
    ("availableSensors", JS.Arr [JS.Str "OCM"; JS.Str "Scatterometer"; JS.Str "Imager"]) ].

Definition generalMetadata : JS.object :=
  [ ("generalQuery", JS.Bool true);
    ("searchAreas",
     JS.Arr [JS.Str "documentation"; JS.Str "faq"; JS.Str "missions"; JS.Str "support"]) ].

(** [simulateAIResponse(userQuery)].  [now] is what [Date.now()] returns
    and [today] what [new Date()] returns when the reply is built. *)
Definition simulateAIResponse (now today : Z) (userQuery : string) : Message :=
  let query := JS.toLowerCase userQuery in
  if JS.includes query "satellite" || JS.includes query "data" then
    {| id := JS.toString now;
       content := productContent;
       sender := bot;
       timestamp := today;
       type := Some query_analysis;
       metadata := Some productMetadata |}
  else if JS.includes query "download" || JS.includes query "access" then
    {| id := JS.toString now;
       content := procedureContent;
       sender := bot;
       timestamp := today;
       type := Some document;
       metadata := Some procedureMetadata |}
  else if JS.includes query "location" || JS.includes query "area"
          || JS.includes query "region" then
    {| id := JS.toString now;
       content := geospatialContent;
       sender := bot;
       timestamp := today;
       type := Some geospatial;
       metadata := Some geospatialMetadata |}
  else
    {| id := JS.toString now;
       content := generalContent userQuery;
       sender := bot;
       timestamp := today;
       type := None;
       metadata := Some generalMetadata |}.

(** [message.metadata.key], as the message bubble reads it. *)
Definition field (m : Message) (key : string) : option JS.value :=
  match metadata m with
  | Some o => JS.get o key
  | None => None
  end.

(** The parts of a reply that make up the classification: intent,
    confidence, entities, and the body chosen (type and content). *)
Record ClassificationResult := {
  intent : option JS.value;
  confidence : option JS.value;
  entities : option JS.value;
  template : option MessageType * string
}.

Definition classification (m : Message) : ClassificationResult :=
  {| intent := field m "intent";
     confidence := field m "confidence";
     entities := field m "entities";
     template := (type m, content m) |}.

(** The labels the bubble joins after "Entities:", when the reply has an
    entity list. *)
Definition entityLabels (m : Message) : option (list string) :=
  match field m "entities" with
  | Some (JS.Arr l) =>
      Some (flat_map (fun v => match v with JS.Str s => [s] | _ => [] end) l)
  | _ => None
  end.

(** The keyword tests of the cascade, on the lowered query. *)
Definition mentionsProduct (userQuery : string) : bool :=
  let query := JS.toLowerCase userQuery in
  JS.includes query "satellite" || JS.includes query "data".

Definition mentionsDownload (userQuery : string) : bool :=
  let query := JS.toLowerCase userQuery in
  JS.includes query "download" || JS.includes query "access".

Definition mentionsPlace (userQuery : string) : bool :=
  let query := JS.toLowerCase userQuery in
  JS.includes query "location" || JS.includes query "area" || JS.includes query "region".

End ChatInterface.


(** ** The entity extractor as the specification words it *)

Module EntityExtractor.

(** Removal of duplicates that keeps the first occurrence of each label. *)
Fixpoint dedup (seen l : list string) : list string :=
  match l with
  | [] => []
  | a :: l' =>
      if existsb (String.eqb a) seen then dedup seen l'
      else a :: dedup (a :: seen) l'
  end.

(** The specification's [extract]: the catalog labels that occur in the
    text, compared without regard to case, in catalog order, each once.
    The components contain no such function; this definition follows the
    specification and is what the reply's entity list is compared with. *)
Definition extract (text : string) (catalog : list KnowledgeGraph.Node) : list string :=
  dedup []
    (List.filter
       (fun l => JS.includes (JS.toLowerCase text) (JS.toLowerCase l))
       (map KnowledgeGraph.label catalog)).

End EntityExtractor.

(** ** Further string primitives *)

Module JSString.

(** The white space and line terminators of 7-bit text: tab, line feed,
    vertical tab, form feed, carriage return and space. *)
Definition isWhiteSpace (c : ascii) : bool :=
  let n := nat_of_ascii c in
  ((9 <=? n)%nat && (n <=? 13)%nat) || (n =? 32)%nat.

(** [s.trimStart()] *)
Fixpoint trimStart (s : string) : string :=
  match s with
  | EmptyString => EmptyString
  | String c s' => if isWhiteSpace c then trimStart s' else s
  end.

(** [s.trimEnd()] *)
Fixpoint trimEnd (s : string) : string :=
  match s with
  | EmptyString => EmptyString
  | String c s' =>
      match trimEnd s' with
      | EmptyString => if isWhiteSpace c then EmptyString else String c EmptyString
      | r => String c r
      end
  end.

(** [s.trim()] *)
Definition trim (s : string) : string := trimEnd (trimStart s).

(** [s.replace(a, b)] for one-character strings [a] and [b]: only the
    first occurrence is replaced. *)
Fixpoint replaceFirst (a b : ascii) (s : string) : string :=
  match s with
  | EmptyString => EmptyString
  | String c s' =>
      if Ascii.eqb c a then String b s' else String c (replaceFirst a b s')
  end.

(** A string of white space only (the empty string included). *)
Fixpoint blank (s : string) : bool :=
  match s with
  | EmptyString => true
  | String c s' => isWhiteSpace c && blank s'
  end.



(** The number of occurrences of a character. *)
Fixpoint occurrences (a : ascii) (s : string) : nat :=
  match s with
  | EmptyString => 0
  | String c s' => (if Ascii.eqb c a then 1 else 0) + occurrences a s'
  end.

End JSString.

(** ** The knowledge-graph browser: node layer, events, metadata card *)

Module GraphView.
Import KnowledgeGraph.

Inductive Icon := Satellite | Database | FileText | MapPin | Users | Zap | Network.

Definition getNodeIcon (type : string) : Icon :=
  if String.eqb type "mission" then Satellite
  else if String.eqb type "product" then Database
  else if String.eqb type "document" then FileText
  else if String.eqb type "location" then MapPin
  else if String.eqb type "user" then Users
  else if String.eqb type "process" then Zap
  else Network.

(** The group drawn for a node: the circle, the icon box, the caption. *)
Record NodeGroup := {
  group_key : string;
  cx : Z; cy : Z; r : string;
  circleClass : string;
  iconX : Z; iconY : Z; iconWidth : string; iconHeight : string;
  icon : Icon;
  textX : Z; textY : Z;
  caption : string
}.

Definition renderNode (node : Node) : NodeGroup :=
  {| group_key := id node;
     cx := x node + 40;
     cy := y node + 40;
     r := "35";
     circleClass :=
       getNodeColor (type_name (type node)) ++
       " opacity-80 hover:opacity-100 cursor-pointer transition-opacity duration-200";
     iconX := x node + 25;
     iconY := y node + 25;
     iconWidth := "30";
     iconHeight := "30";
     icon := getNodeIcon (type_name (type node));
     textX := x node + 40;
     textY := y node + 100;
     caption := label node |}.

(** What the user can do: type in the search box, click a circle. *)
Inductive Event :=
| Change (t : string)
| Click (n : Node).

Section Catalog.

Variable nodes : list Node.

(** The node layer: one group per node drawn. *)
Definition renderNodes (s : State) : list NodeGroup :=
  map renderNode (visibleNodes nodes s).

Definition handle (e : Event) (s : State) : State :=
  match e with
  | Change t => setSearchTerm nodes t s
  | Click n => setSelectedNode n s
  end.

(** A circle can be clicked only if it is drawn. *)
Definition enabled (s : State) (e : Event) : Prop :=
  match e with
  | Change _ => True
  | Click n => In n (visibleNodes nodes s)
  end.

(** The states a user can bring the component to. *)
Inductive session : State -> Prop :=
| session_mount : session (mount nodes)
| session_step e s : session s -> enabled s e -> session (handle e s).

Definition run (events : list Event) (s : State) : State :=
  fold_left (fun s e => handle e s) events s.

End Catalog.

(** The node of the last click among the events, if any. *)
Fixpoint lastClick (events : list Event) : option Node :=
  match events with
  | [] => None
  | e :: events' =>
      match lastClick events' with
      | Some n => Some n
      | None => match e with Click n => Some n | Change _ => None end
      end
  end.

(** The caption of a metadata row: [key.replace('_', ' ')]. *)
Definition metadataKey (key : string) : string :=
  JSString.replaceFirst "_" " " key.

(** The rows of the Metadata card, one per property of the object. *)
Definition metadataRows (sel : Node) : list (string * JS.value) :=
  map (fun '(key, value) => (metadataKey key, value)) (metadata sel).

End GraphView.

(** ** The chat window: input, sending, the delayed reply, the bubbles *)

Module ChatSession.
Import ChatInterface.

(** The message the window opens with; [start] is the clock at mount. *)
Definition greeting (start : Z) : Message :=
  {| id := "1";
     content := "Hello! I'm your MOSDAC AI Assistant. I can help you find information about satellite data, products, documentation, and services. What would you like to know?";
     sender := bot;
     timestamp := start;
     type := None;
     metadata := None |}.

(** The state of the window: the three [useState] cells, and the queries
    held by the [setTimeout] callbacks not yet run, oldest first. *)
Record ChatState := {
  messages : list Message;
  inputValue : string;
  isTyping : bool;
  pending : list string
}.

Definition init (start : Z) : ChatState :=
  {| messages := [greeting start]; inputValue := ""; isTyping := false; pending := [] |}.

(** The input's [onChange]. *)
Definition setInputValue (t : string) (s : ChatState) : ChatState :=
  {| messages := messages s; inputValue := t; isTyping := isTyping s;
     pending := pending s |}.

Definition userMessage (now today : Z) (t : string) : Message :=
  {| id := JS.toString now;
     content := t;
     sender := user;
     timestamp := today;
     type := None;
     metadata := None |}.

(** [handleSendMessage()], up to the point where the timer is set. *)
Definition handleSendMessage (now today : Z) (s : ChatState) : ChatState :=
  if negb (JS.truthy (JSString.trim (inputValue s))) then s
  else {| messages := (messages s ++ [userMessage now today (inputValue s)])%list;
          inputValue := "";
          isTyping := true;
          pending := (pending s ++ [inputValue s])%list |}.

(** The oldest timer runs: the reply to the query it holds is appended. *)
Definition timeout (now today : Z) (s : ChatState) : ChatState :=
  match pending s with
  | [] => s
  | q :: rest =>
      {| messages := (messages s ++ [simulateAIResponse now today q])%list;
         inputValue := inputValue s;
         isTyping := false;
         pending := rest |}
  end.

(** [handleKeyPress(e)] *)
Definition handleKeyPress (key : string) (shiftKey : bool) (now today : Z)
    (s : ChatState) : ChatState :=
  if String.eqb key "Enter" && negb shiftKey then handleSendMessage now today s
  else s.

(** The send button's [disabled]. *)
Definition sendDisabled (s : ChatState) : bool :=
  negb (JS.truthy (JSString.trim (inputValue s))) || isTyping s.

(** A click on the send button; a disabled button does nothing. *)
Definition clickSend (now today : Z) (s : ChatState) : ChatState :=
  if sendDisabled s then s else handleSendMessage now today s.

Inductive ChatEvent :=
| Typed (t : string)
| KeyPress (key : string) (shiftKey : bool) (now today : Z)
| ClickSend (now today : Z)
| Timeout (now today : Z).

Definition chatStep (s : ChatState) (e : ChatEvent) : ChatState :=
  match e with
  | Typed t => setInputValue t s
  | KeyPress key shiftKey now today => handleKeyPress key shiftKey now today s
  | ClickSend now today => clickSend now today s
  | Timeout now today => timeout now today s
  end.

Definition chatRun (events : list ChatEvent) (s : ChatState) : ChatState :=
  fold_left chatStep events s.

Inductive BubbleIcon := UserIcon | Sparkles | MapPinIcon | FileTextIcon | BotIcon.

Definition getMessageIcon (message : Message) : BubbleIcon :=
  match sender message with
  | user => UserIcon
  | bot =>
      match type message with
      | Some query_analysis => Sparkles
      | Some geospatial => MapPinIcon
      | Some document => FileTextIcon
      | _ => BotIcon
      end
  end.

Definition getMessageBgColor (message : Message) : string :=
  match sender message with
  | user => "bg-blue-600"
  | bot =>
      match type message with
      | Some query_analysis => "bg-purple-600"
      | Some geospatial => "bg-green-600"
      | Some document => "bg-orange-600"
      | _ => "bg-teal-600"
      end
  end.

Definition fromUser (m : Message) : bool :=
  match sender m with user => true | bot => false end.

(** The texts of the user's messages, in order. *)
Definition userTexts (l : list Message) : list string :=
  map content (List.filter fromUser l).

(** The bot's messages, in order. *)
Definition botMessages (l : list Message) : list Message :=
  List.filter (fun m => negb (fromUser m)) l.

(** The reply built at clock reading [clock] for the query [q]. *)
Definition replyAt (cq : (Z * Z) * string) : Message :=
  simulateAIResponse (fst (fst cq)) (snd (fst cq)) (snd cq).

(** Questions are answered in order: the bot's messages are the greeting
    followed by the replies to the first user texts, one each and in the
    same order, and the texts not yet answered are exactly the awaited
    ones.  [clocks] are the clock readings at which the replies were
    built. *)
Definition answeredInOrder (start : Z) (clocks : list (Z * Z)) (s : ChatState) : Prop :=
  botMessages (messages s) =
    greeting start :: map replyAt (combine clocks (userTexts (messages s))) /\
  pending s = skipn (length clocks) (userTexts (messages s)) /\
  length clocks + length (pending s) = length (userTexts (messages s)).

End ChatSession.

(** ** The content manager: the table filter and the status colours *)

Module ContentManager.

Inductive ContentType := document | webpage | faq | api.

Definition type_name (t : ContentType) : string :=
  match t with
  | document => "document"
  | webpage => "webpage"
  | faq => "faq"
  | api => "api"
  end.

Inductive Status := processed | processing | error | pending.

Definition status_name (st : Status) : string :=
  match st with
  | processed => "processed"
  | processing => "processing"
  | error => "error"
  | pending => "pending"
  end.

Record ContentItem := {
  id : string;
  title : string;
  type : ContentType;
  status : Status;
  lastUpdated : string;
  entities : Z;
  relationships : Z;
  source : string
}.

Definition contentItems : list ContentItem :=
  [ {| id := "1"; title := "INSAT-3D User Manual"; type := document;
       status := processed; lastUpdated := "2024-01-15"; entities := 247;
       relationships := 89; source := "/docs/insat3d_manual.pdf" |};
    {| id := "2"; title := "MOSDAC FAQ Database"; type := faq;
       status := processed; lastUpdated := "2024-01-14"; entities := 156;
       relationships := 203; source := "/faq/index.html" |};
    {| id := "3"; title := "API Documentation"; type := api;
       status := processing; lastUpdated := "2024-01-16"; entities := 89;
       relationships := 45; source := "/api/docs" |};
    {| id := "4"; title := "Product Catalog Pages"; type := webpage;
       status := processed; lastUpdated := "2024-01-13"; entities := 342;
       relationships := 156; source := "/catalog/*" |};
    {| id := "5"; title := "Mission Overview Documents"; type := document;
       status := error; lastUpdated := "2024-01-12"; entities := 0;
       relationships := 0; source := "/missions/overview.docx" |} ].

Inductive Icon := CheckCircle | RefreshCw | AlertTriangle | FileText | Globe | Database | Upload.

(** [getStatusIcon(status)]: the icon and its class. *)
Definition getStatusIcon (status : string) : Icon * string :=
  if String.eqb status "processed" then (CheckCircle, "h-4 w-4 text-green-400")
  else if String.eqb status "processing" then (RefreshCw, "h-4 w-4 text-blue-400 animate-spin")
  else if String.eqb status "error" then (AlertTriangle, "h-4 w-4 text-red-400")
  else (FileText, "h-4 w-4 text-gray-400").

(** [getTypeIcon(type)] *)
Definition getTypeIcon (type : string) : Icon * string :=
  if String.eqb type "document" then (FileText, "h-4 w-4")
  else if String.eqb type "webpage" then (Globe, "h-4 w-4")
  else if String.eqb type "faq" then (Database, "h-4 w-4")
  else if String.eqb type "api" then (Upload, "h-4 w-4")
  else (FileText, "h-4 w-4").

(** The colour of the status text in a table row. *)
Definition statusTextColor (status : string) : string :=
  if String.eqb status "processed" then "text-green-400"
  else if String.eqb status "processing" then "text-blue-400"
  else if String.eqb status "error" then "text-red-400"
  else "text-gray-400".

(** The table's rows: [contentItems.filter(...)] for the search box's
    term and the value of the status select. *)
Definition filteredItems (items : list ContentItem) (searchTerm filterStatus : string)
    : list ContentItem :=
  List.filter
    (fun item =>
       let matchesSearch :=
         JS.includes (JS.toLowerCase (title item)) (JS.toLowerCase searchTerm) ||
         JS.includes (JS.toLowerCase (source item)) (JS.toLowerCase searchTerm) in
       let matchesFilter :=
         String.eqb filterStatus "all" ||
         String.eqb (status_name (status item)) filterStatus in
       matchesSearch && matchesFilter)
    items.

End ContentManager.

(** ** The application shell: the tab bar *)

Module App.

Inductive Component := ChatInterface | KnowledgeGraph | Dashboard | ContentManager.

Inductive TabIcon := MessageSquare | Network | BarChart3 | Settings.

Record Tab := {
  id : string;
  label : string;
  icon : TabIcon
}.

Definition tabs : list Tab :=
  [ {| id := "chat"; label := "Chat Bot"; icon := MessageSquare |};
    {| id := "knowledge"; label := "Knowledge Graph"; icon := Network |};
    {| id := "dashboard"; label := "Analytics"; icon := BarChart3 |};
    {| id := "content"; label := "Content Manager"; icon := Settings |} ].

(** [renderContent()], as a function of the active tab. *)
Definition renderContent (activeTab : string) : Component :=
  if String.eqb activeTab "chat" then ChatInterface
  else if String.eqb activeTab "knowledge" then KnowledgeGraph
  else if String.eqb activeTab "dashboard" then Dashboard
  else if String.eqb activeTab "content" then ContentManager
  else ChatInterface.

(** The tab the application opens on. *)
Definition initialTab : string := "chat".

(** A click on a tab button: [setActiveTab(tab.id)]. *)
Definition clickTab (tab : Tab) (activeTab : string) : string := id tab.

(** Whether a tab button is drawn as the active one. *)
Definition highlighted (activeTab : string) (tab : Tab) : bool :=
  String.eqb activeTab (id tab).

(** The tab states reachable by clicking buttons of the bar. *)
Inductive reachableTab : string -> Prop :=
| tab_initial : reachableTab initialTab
| tab_click tab a : reachableTab a -> In tab tabs -> reachableTab (clickTab tab a).

End App.

(** ** Facts about the JavaScript primitives *)

Module JSFacts.
Import JS.

Lemma prefix_app (t s : string) :
  String.prefix t s = true <-> exists b, s = t ++ b.
Proof.
  revert s; induction t as [|c t IH]; intros s.
  - split; [intros _; exists s; reflexivity | intros _; destruct s; reflexivity].
  - destruct s as [|d s]; simpl.
    + split; [discriminate | intros [b Hb]; discriminate].
    + destruct (Ascii.ascii_dec c d) as [->|Hcd].
      * rewrite IH. split; intros [b Hb]; exists b.
        -- simpl. now rewrite Hb.
        -- simpl in Hb. now inversion Hb.
      * split; [discriminate|].
        intros [b Hb]. simpl in Hb. inversion Hb. congruence.
Qed.

(** [includes] finds exactly the strings that occur somewhere in [s]. *)
Lemma includes_substring (s t : string) :
  includes s t = true <-> exists a b, s = a ++ t ++ b.
Proof.
  induction s as [|c s IH].
  - change (includes "" t) with (String.prefix t "" || false).
    rewrite orb_false_r, prefix_app. split.
    + intros [b Hb]. exists "", b. exact Hb.
    + intros [a [b Hab]]. destruct a; simpl in Hab.
      * exists b. exact Hab.
      * discriminate.
  - change (includes (String c s) t)
      with (String.prefix t (String c s) || includes s t).
    rewrite orb_true_iff, prefix_app, IH. split.
    + intros [[b Hb] | [a [b Hab]]].
      * exists "", b. exact Hb.
      * exists (String c a), b. simpl. now rewrite Hab.
    + intros [a [b Hab]]. destruct a as [|d a]; simpl in Hab.
      * left. exists b. exact Hab.
      * right. inversion Hab. exists a, b. reflexivity.
Qed.

Lemma includes_empty (s : string) : includes s "" = true.
Proof. destruct s; reflexivity. Qed.

Lemma truthy_toLowerCase (s : string) : truthy (toLowerCase s) = truthy s.
Proof. destruct s; reflexivity. Qed.

Lemma truthy_empty (s : string) : truthy s = false <-> s = "".
Proof. destruct s; simpl; split; congruence. Qed.

(** Case variants are the strings [toLowerCase] identifies. *)
Lemma case_variant_toLowerCase (s t : string) :
  case_variant s t <-> toLowerCase s = toLowerCase t.
Proof.
  split.
  - induction 1 as [|c d s t Hc _ IH]; simpl; congruence.
  - revert t; induction s as [|c s IH]; intros [|d t] H; simpl in H;
      try discriminate.
    + constructor.
    + inversion H. constructor; auto.
Qed.

Lemma case_variant_refl (s : string) : case_variant s s.
Proof. now apply case_variant_toLowerCase. Qed.

Lemma case_variant_truthy (s t : string) :
  case_variant s t -> truthy s = truthy t.
Proof. now destruct 1. Qed.

End JSFacts.

(** ** The knowledge-graph browser: search *)

Module SearchFacts.
Import JS JSFacts KnowledgeGraph.

Section Catalog.

Variable nodes : list Node.

Lemma filterNodes_empty : filterNodes nodes "" = nodes.
Proof.
  unfold filterNodes. induction nodes as [|n ns IH]; simpl; [reflexivity|].
  rewrite includes_empty. simpl. now f_equal.
Qed.

Lemma filterNodes_case_variant (t t' : string) :
  case_variant t t' -> filterNodes nodes t = filterNodes nodes t'.
Proof.
  intros H. apply case_variant_toLowerCase in H.
  unfold filterNodes. now rewrite H.
Qed.

(** After every handler the stored filter is the filter of the stored
    term: the effect has caught up with the search box. *)
Lemma reachable_filtered (s : State) :
  reachable nodes s -> filteredNodes s = filterNodes nodes (searchTerm s).
Proof.
  induction 1 as [|t s _ IH|n s _ IH]; simpl; auto.
  unfold setSearchTerm. destruct (String.eqb t (searchTerm s)); auto.
Qed.

Lemma search_reachable (s : State) (t : string) :
  reachable nodes s ->
  search nodes s t = if truthy t then filterNodes nodes t else nodes.
Proof.
  intros Hs. unfold search, setSearchTerm, visibleNodes.
  destruct (String.eqb_spec t (searchTerm s)) as [->|Hne]; simpl.
  - now rewrite (reachable_filtered s Hs).
  - reflexivity.
Qed.

End Catalog.

End SearchFacts.

(** ** QueryIndex: what the search box returns *)

Module QueryIndex.
Import JS JSFacts KnowledgeGraph SearchFacts.

(** C5, as stated, fails: a term of one space is whitespace-only, yet the
    sample catalog is filtered down to the seven nodes whose label holds a
    space instead of being returned whole. *)
Lemma search_blank_term_filters :
  whitespace_only " " = true /\
  length nodes = 10 /\
  map id (search nodes (mount nodes) " ") =
    ["imager_data"; "scatterometer_data"; "ocm_data"; "user_manual";
     "api_doc"; "faq"; "indian_ocean"] /\
  search nodes (mount nodes) " " <> nodes.
Proof.
  repeat split; try reflexivity.
  intros H. apply (f_equal (@length Node)) in H. vm_compute in H. discriminate.
Qed.

(** C5, amended: in every state the component can reach, the empty search
    term shows the whole catalog in catalog order (hence as many nodes as
    the catalog has); every other term, a whitespace-only one included, is
    used as a filter and shows exactly the nodes whose lowered label or
    type name includes the lowered term. *)
Theorem search_empty_term (ns : list Node) (s : State) :
  reachable ns s ->
  search ns s "" = ns /\
  length (search ns s "") = length ns /\
  forall t, t <> "" -> search ns s t = filterNodes ns t.
Proof.
  intros Hs. rewrite (search_reachable ns s "" Hs). simpl.
  repeat split.
  intros t Ht. rewrite (search_reachable ns s t Hs).
  destruct t; [contradiction|reflexivity].
Qed.

(** The sample catalog, freshly mounted, with a one-space term. *)
Lemma search_empty_term_witness :
  reachable nodes (mount nodes) /\
  search nodes (mount nodes) "" = nodes /\
  length (search nodes (mount nodes) "") = length nodes /\
  " " <> "" /\
  search nodes (mount nodes) " " = filterNodes nodes " ".
Proof.
  assert (H0 : reachable nodes (mount nodes)) by apply reach_mount.
  assert (H1 : " " <> "") by discriminate.
  destruct (search_empty_term nodes (mount nodes) H0) as [Ha [Hb Hc]].
  split; [exact H0|]. split; [exact Ha|]. split; [exact Hb|].
  split; [exact H1 | exact (Hc " " H1)].
Defined.

(** C8: search is case-insensitive and idempotent.  From any two states
    the component can reach, two terms that differ only in the case of
    their letters show the same sequence of nodes; in particular asking
    again with the same term, in the state the first answer left, shows
    the same sequence, and "SAT" and "sat" agree. *)
Theorem search_case_insensitive_idempotent
    (ns : list Node) (s s' : State) (t t' : string) :
  reachable ns s -> reachable ns s' -> case_variant t t' ->
  search ns s t = search ns s' t' /\
  search ns (setSearchTerm ns t s) t = search ns s t /\
  search ns s "SAT" = search ns s "sat".
Proof.
  intros Hs Hs' Hv.
  assert (Hgen : forall a b u u', reachable ns a -> reachable ns b ->
            case_variant u u' -> search ns a u = search ns b u').
  { intros a b u u' Ha Hb Hu.
    rewrite (search_reachable ns a u Ha), (search_reachable ns b u' Hb).
    rewrite (case_variant_truthy u u' Hu).
    now rewrite (filterNodes_case_variant ns u u' Hu). }
  repeat split.
  - now apply Hgen.
  - apply Hgen; [now apply reach_search | assumption | apply case_variant_refl].
  - apply Hgen; try assumption.
    apply case_variant_toLowerCase. reflexivity.
Qed.

(** The sample catalog: "OCM data" asked on mount and "ocm DATA" asked
    after a search for "ocean". *)
Lemma search_case_insensitive_idempotent_witness :
  reachable nodes (mount nodes) /\
  reachable nodes (setSearchTerm nodes "ocean" (mount nodes)) /\
  case_variant "OCM data" "ocm DATA" /\
  search nodes (mount nodes) "OCM data" =
    search nodes (setSearchTerm nodes "ocean" (mount nodes)) "ocm DATA" /\
  search nodes (setSearchTerm nodes "OCM data" (mount nodes)) "OCM data" =
    search nodes (mount nodes) "OCM data" /\
  search nodes (mount nodes) "SAT" = search nodes (mount nodes) "sat".
Proof.
  assert (H0 : reachable nodes (mount nodes)) by apply reach_mount.
  assert (H1 : reachable nodes (setSearchTerm nodes "ocean" (mount nodes)))
    by (apply reach_search; exact H0).
  assert (H2 : case_variant "OCM data" "ocm DATA")
    by (apply case_variant_toLowerCase; reflexivity).
  split; [exact H0|]. split; [exact H1|]. split; [exact H2|].
  exact (search_case_insensitive_idempotent nodes _ _ _ _ H0 H1 H2).
Defined.

End QueryIndex.

(** ** GraphStore: edges, connections and the details panel *)

Module GraphStoreFacts.
Import JS JSFacts KnowledgeGraph.

Lemma lookup_map {A B : Type} (f : A -> B) (l : list A) (i : nat) :
  map f l !! i = option_map f (l !! i).
Proof.
  revert i; induction l as [|a l IH]; intros [|i]; simpl; auto.
Qed.

Lemma findNode_None (ns : list Node) (i : string) :
  findNode ns i = None <-> forall n, In n ns -> id n <> i.
Proof.
  unfold findNode. split.
  - intros H n Hn Heq.
    pose proof (find_none _ _ H n Hn) as Hb. simpl in Hb.
    rewrite Heq, String.eqb_refl in Hb. discriminate.
  - intros H. induction ns as [|n ns IH]; simpl; [reflexivity|].
    destruct (String.eqb_spec (id n) i) as [Heq|Hne].
    + exfalso. apply (H n); [now left | exact Heq].
    + apply IH. intros m Hm. apply H. now right.
Qed.

Lemma renderEdge_None (ns : list Node) (index : nat) (e : Edge) :
  renderEdge ns index e = None <-> dangling ns e.
Proof.
  unfold renderEdge, dangling.
  destruct (findNode ns (from e)), (findNode ns (to e)); split;
    try discriminate; try reflexivity; intuition discriminate.
Qed.

Lemma incidentEdges_In (es : list Edge) (i : string) (e : Edge) :
  In e (incidentEdges es i) <-> In e es /\ (from e = i \/ to e = i).
Proof.
  unfold incidentEdges. rewrite filter_In, orb_true_iff.
  now rewrite !String.eqb_eq.
Qed.

Lemma incidentEdges_sublist (es : list Edge) (i : string) :
  incidentEdges es i `sublist_of` es.
Proof.
  unfold incidentEdges. induction es as [|e es IH]; simpl.
  - constructor.
  - destruct (String.eqb (from e) i || String.eqb (to e) i).
    + now apply sublist_skip.
    + now apply sublist_cons.
Qed.

Lemma connectionRows_lookup (ns : list Node) (es : list Edge) (sel : Node)
    (i : nat) (cid : string) :
  connections sel !! i = Some cid ->
  connectionRows (renderDetails ns es sel) !! i = Some (renderConnection ns cid).
Proof.
  intros H. simpl. now rewrite lookup_map, H.
Qed.

End GraphStoreFacts.

Module GraphStore.
Import JS JSFacts KnowledgeGraph GraphStoreFacts.

(** C1, as stated, fails: the connections written into the sample node
    "insat3d" name three ids, while the only id an edge joins it to is
    "imager_data"; as sets the two differ. *)
Lemma connections_differ_from_neighbours :
  exists n,
    findNode nodes "insat3d" = Some n /\
    connections n = ["imager_data"; "sounder_data"; "meteorology"] /\
    neighbours edges (id n) = ["imager_data"] /\
    connectionSet n <> neighbourSet edges (id n).
Proof.
  eexists. split; [reflexivity|]. repeat split.
  apply (bool_decide_unpack _). vm_compute. exact I.
Qed.

(** C1, amended: a node's connections are the list written into its own
    record, not a view recomputed from the edge list.  The details panel
    shows that list row for row (one row per written id, in written
    order, each resolved against the node list alone), so it is the same
    whatever the edges are; and in the sample catalog the written list
    differs from the set of edge neighbours at every node. *)
Theorem connections_authored
    (ns : list Node) (es es' : list Edge) (sel : Node) :
  connectionRows (renderDetails ns es sel) =
    connectionRows (renderDetails ns es' sel) /\
  length (connectionRows (renderDetails ns es sel)) = length (connections sel) /\
  (forall i cid,
      connections sel !! i = Some cid ->
      connectionRows (renderDetails ns es sel) !! i = Some (renderConnection ns cid)) /\
  Forall (fun n => connectionSet n <> neighbourSet edges (id n)) nodes.
Proof.
  split; [reflexivity|]. split; [apply length_map|]. split.
  - intros i cid H. now apply connectionRows_lookup.
  - apply (bool_decide_unpack _). vm_compute. exact I.
Qed.

(** The second connection of "insat3d", with and without the extra edge. *)
Lemma connections_authored_witness :
  exists sel,
    findNode nodes "insat3d" = Some sel /\
    connections sel !! 1 = Some "sounder_data" /\
    connectionRows (renderDetails nodes edges sel) !! 1 =
      Some (renderConnection nodes "sounder_data") /\
    connectionRows (renderDetails nodes edges sel) =
      connectionRows (renderDetails nodes edgesWithGhost sel).
Proof.
  eexists. split; [reflexivity|].
  match goal with |- connections ?s !! 1 = _ /\ _ => pose (sel := s) end.
  assert (H1 : connections sel !! 1 = Some "sounder_data") by reflexivity.
  destruct (connections_authored nodes edges edgesWithGhost sel)
    as [Ha [_ [Hc _]]].
  split; [exact H1|]. split; [exact (Hc 1 "sounder_data" H1) | exact Ha].
Defined.

(** C3, as stated, fails: with one edge added whose target "ghost" names
    no node, nothing is rejected.  The edge layer is still produced, with
    an empty slot for that edge, and the Relationships card of "insat3d"
    lists the edge although its far end resolves to nothing. *)
Lemma dangling_edge_is_served :
  In ghostEdge edgesWithGhost /\
  dangling nodes ghostEdge /\
  length (renderEdges nodes edgesWithGhost) = 8 /\
  renderEdges nodes edgesWithGhost !! 7 = Some None /\
  In ghostEdge (incidentEdges edgesWithGhost "insat3d") /\
  exists n,
    findNode nodes "insat3d" = Some n /\
    relationshipRows (renderDetails nodes edgesWithGhost n) =
      [ {| rel_type := "provides"; rel_label := "generates" |};
        {| rel_type := "related"; rel_label := "tracks" |} ].
Proof.
  split; [apply in_or_app; right; now left|].
  split; [right; reflexivity|].
  split; [reflexivity|]. split; [reflexivity|].
  split; [apply incidentEdges_In; split;
          [apply in_or_app; right; now left | now left]|].
  eexists. split; reflexivity.
Qed.

(** C3, amended: no catalog is rejected for an edge whose end names no
    node.  For every catalog the edge layer has one slot per edge, the
    slot is empty exactly when an end of the edge is unresolved and holds
    a line otherwise, and every edge, resolved or not, is listed among the
    incident edges of both ids it names. *)
Theorem renderEdges_skips_dangling (ns : list Node) (es : list Edge) :
  length (renderEdges ns es) = length es /\
  (forall i e,
      es !! i = Some e ->
      (renderEdges ns es !! i = Some None <-> dangling ns e) /\
      (~ dangling ns e -> exists line, renderEdges ns es !! i = Some (Some line))) /\
  (forall e,
      In e es ->
      In e (incidentEdges es (from e)) /\ In e (incidentEdges es (to e))).
Proof.
  unfold renderEdges. split; [apply length_imap|]. split.
  - intros i e He. rewrite list_lookup_imap, He. simpl. split.
    + rewrite <- (renderEdge_None ns i e). split; congruence.
    + intros Hd. destruct (renderEdge ns i e) as [line|] eqn:Hr.
      * now exists line.
      * exfalso. apply Hd. now apply (renderEdge_None ns i e).
  - intros e He. split; apply incidentEdges_In; auto.
Qed.

(** The extra edge gets an empty slot, the first sample edge a line. *)
Lemma renderEdges_skips_dangling_witness :
  edgesWithGhost !! 7 = Some ghostEdge /\
  dangling nodes ghostEdge /\
  renderEdges nodes edgesWithGhost !! 7 = Some None /\
  edges !! 0 =
    Some {| from := "insat3d"; to := "imager_data"; edge_label := "generates";
            edge_type := provides |} /\
  (exists line, renderEdges nodes edges !! 0 = Some (Some line)) /\
  In ghostEdge (incidentEdges edgesWithGhost "ghost").
Proof.
  assert (H7 : edgesWithGhost !! 7 = Some ghostEdge) by reflexivity.
  assert (Hd : dangling nodes ghostEdge) by (right; reflexivity).
  assert (Hin : In ghostEdge edgesWithGhost)
    by (apply in_or_app; right; now left).
  destruct (renderEdges_skips_dangling nodes edgesWithGhost) as [_ [Hslot Hinc]].
  destruct (renderEdges_skips_dangling nodes edges) as [_ [Hslot0 _]].
  split; [exact H7|]. split; [exact Hd|].
  split; [exact (proj2 (proj1 (Hslot 7 ghostEdge H7)) Hd)|].
  split; [reflexivity|].
  split; [|exact (proj2 (Hinc ghostEdge Hin))].
  apply (proj2 (Hslot0 0 _ eq_refl)).
  intros [H|H]; discriminate H.
Defined.

(** C9: the Relationships card of a selected node is built from exactly
    the edges whose [from] or [to] is the node's id, in catalog order:
    an edge is among them iff it is in the catalog and touches the id,
    they form a subsequence of the catalog's edge list, and each yields
    one row.  For the sample catalog, "insat3d" has exactly one incident
    edge, the one to "imager_data". *)
Theorem incidentEdges_spec (es : list Edge) (i : string) :
  (forall e, In e (incidentEdges es i) <-> In e es /\ (from e = i \/ to e = i)) /\
  incidentEdges es i `sublist_of` es /\
  (forall ns sel,
      id sel = i ->
      relationshipRows (renderDetails ns es sel) =
        map renderRelationship (incidentEdges es i)) /\
  incidentEdges edges "insat3d" =
    [ {| from := "insat3d"; to := "imager_data"; edge_label := "generates";
         edge_type := provides |} ] /\
  length (incidentEdges edges "insat3d") = 1.
Proof.
  split; [intros e; apply incidentEdges_In|].
  split; [apply incidentEdges_sublist|].
  split; [intros ns sel <-; reflexivity|].
  split; reflexivity.
Qed.

(** The two edges of "scatsat1", in catalog order. *)
Lemma incidentEdges_spec_witness :
  exists sel,
    findNode nodes "scatsat1" = Some sel /\
    id sel = "scatsat1" /\
    relationshipRows (renderDetails nodes edges sel) =
      map renderRelationship (incidentEdges edges "scatsat1") /\
    map edge_label (incidentEdges edges "scatsat1") = ["produces"; "monitors"].
Proof.
  eexists. split; [reflexivity|].
  match goal with |- id ?s = _ /\ _ => pose (sel := s) end.
  assert (H1 : id sel = "scatsat1") by reflexivity.
  destruct (incidentEdges_spec edges "scatsat1") as [_ [_ [Hrows _]]].
  split; [exact H1|]. split; [exact (Hrows nodes sel H1) | reflexivity].
Defined.

(** C10: the Connections card is total, dangling references included.
    For every selected node and every id at some position of its
    connections, if no node of the catalog has that id, the row at that
    position shows the raw id beside a dot of the default grey class; and
    the card has one row per connection. *)
Theorem connection_row_dangling
    (ns : list Node) (es : list Edge) (sel : Node) (i : nat) (cid : string) :
  connections sel !! i = Some cid ->
  (forall n, In n ns -> id n <> cid) ->
  connectionRows (renderDetails ns es sel) !! i =
    Some {| dot := "bg-gray-500"; text := cid |} /\
  length (connectionRows (renderDetails ns es sel)) = length (connections sel).
Proof.
  intros Hi Hnone. split; [|apply length_map].
  rewrite (connectionRows_lookup ns es sel i cid Hi).
  unfold renderConnection.
  now rewrite (proj2 (findNode_None ns cid) Hnone).
Qed.

(** "sounder_data", the second connection of "insat3d", names no node. *)
Lemma connection_row_dangling_witness :
  exists sel,
    findNode nodes "insat3d" = Some sel /\
    connections sel !! 1 = Some "sounder_data" /\
    (forall n, In n nodes -> id n <> "sounder_data") /\
    connectionRows (renderDetails nodes edges sel) !! 1 =
      Some {| dot := "bg-gray-500"; text := "sounder_data" |} /\
    length (connectionRows (renderDetails nodes edges sel)) =
      length (connections sel).
Proof.
  eexists. split; [reflexivity|].
  assert (H1 : forall n, In n nodes -> id n <> "sounder_data").
  { intros n Hn. simpl in Hn.
    repeat (destruct Hn as [<-|Hn]; [discriminate|]). contradiction. }
  match goal with |- connections ?s !! 1 = _ /\ _ => pose (sel := s) end.
  assert (H2 : connections sel !! 1 = Some "sounder_data") by reflexivity.
  split; [exact H2|]. split; [exact H1|].
  exact (connection_row_dangling nodes edges sel 1 "sounder_data" H2 H1).
Defined.

End GraphStore.

(** ** IntentClassifier: the reply built for a query *)

Module IntentClassifier.
Import JS JSFacts ChatInterface.

Ltac cascade :=
  unfold simulateAIResponse, mentionsProduct, mentionsDownload, mentionsPlace in *;
  cbv zeta in *.

(** The identifier of a reply is the clock reading, so it is the one part
    of a reply that two calls on the same text need not share. *)
Lemma reply_id_follows_clock (now today : Z) (q : string) :
  id (simulateAIResponse now today q) = toString now /\
  timestamp (simulateAIResponse now today q) = today.
Proof.
  cascade. repeat match goal with
           | |- context [if ?b then _ else _] => destruct b
           end; split; reflexivity.
Qed.

(** C2, as stated, fails: "download satellite images" holds both a
    download keyword and a satellite keyword, and the reply is the
    product inquiry, not the download procedure. *)
Lemma download_and_satellite_is_product_inquiry :
  mentionsDownload "download satellite images" = true /\
  mentionsProduct "download satellite images" = true /\
  field (simulateAIResponse 0 0 "download satellite images") "intent" =
    Some (Str "product_inquiry") /\
  type (simulateAIResponse 0 0 "download satellite images") = Some query_analysis /\
  field (simulateAIResponse 0 0 "download satellite images") "procedure" = None /\
  field (simulateAIResponse 0 0 "download satellite images") "procedure" <>
    Some (Str "data_download").
Proof.
  repeat split; try (vm_compute; reflexivity). vm_compute. discriminate.
Qed.

(** C2, amended: for every input text that holds both a download keyword
    ("download" or "access") and a satellite keyword ("satellite" or
    "data"), the reply is that of the satellite/data rule, the first of
    the cascade: intent product_inquiry with confidence 0.92, the
    query-analysis type and the product body.  It is neither the download
    procedure nor the generic fallback. *)
Theorem download_and_satellite_first_rule (now today : Z) (q : string) :
  mentionsDownload q = true ->
  mentionsProduct q = true ->
  field (simulateAIResponse now today q) "intent" = Some (Str "product_inquiry") /\
  field (simulateAIResponse now today q) "confidence" = Some (Num 0.92) /\
  type (simulateAIResponse now today q) = Some query_analysis /\
  content (simulateAIResponse now today q) = productContent /\
  field (simulateAIResponse now today q) "procedure" = None /\
  field (simulateAIResponse now today q) "generalQuery" = None.
Proof.
  intros _ Hp. cascade. rewrite Hp. repeat split.
Qed.

(** A question that asks for a download and mentions data. *)
Lemma download_and_satellite_first_rule_witness :
  mentionsDownload "How do I download INSAT-3D imager data?" = true /\
  mentionsProduct "How do I download INSAT-3D imager data?" = true /\
  field (simulateAIResponse 0 0 "How do I download INSAT-3D imager data?") "intent" =
    Some (Str "product_inquiry").
Proof.
  assert (Hd : mentionsDownload "How do I download INSAT-3D imager data?" = true)
    by (vm_compute; reflexivity).
  assert (Hp : mentionsProduct "How do I download INSAT-3D imager data?" = true)
    by (vm_compute; reflexivity).
  split; [exact Hd|]. split; [exact Hp|].
  exact (proj1 (download_and_satellite_first_rule 0 0 _ Hd Hp)).
Defined.

(** C4, as stated, fails: "satellite" names no catalog label, yet the
    reply lists three entities; "where is INSAT-3D" names one, yet the
    reply has no entity list at all. *)
Lemma entities_ignore_the_text :
  EntityExtractor.extract "satellite" KnowledgeGraph.nodes = [] /\
  entityLabels (simulateAIResponse 0 0 "satellite") =
    Some ["INSAT-3D"; "SCATSAT-1"; "Oceansat-2"] /\
  EntityExtractor.extract "where is INSAT-3D" KnowledgeGraph.nodes = ["INSAT-3D"] /\
  entityLabels (simulateAIResponse 0 0 "where is INSAT-3D") = None /\
  entityLabels (simulateAIResponse 0 0 "satellite") <>
    Some (EntityExtractor.extract "satellite" KnowledgeGraph.nodes).
Proof.
  repeat split; try (vm_compute; reflexivity). vm_compute. discriminate.
Qed.

(** C4, amended: for every input text, the entity list of the reply does
    not depend on which catalog labels occur in the text.  When the
    lowered text includes "satellite" or "data" it is the fixed list
    INSAT-3D, SCATSAT-1, Oceansat-2, in that order; otherwise the reply
    carries no entity list. *)
Theorem entities_fixed (now today : Z) (q : string) :
  entityLabels (simulateAIResponse now today q) =
    (if mentionsProduct q then Some ["INSAT-3D"; "SCATSAT-1"; "Oceansat-2"] else None) /\
  field (simulateAIResponse now today q) "entities" =
    (if mentionsProduct q
     then Some (Arr [Str "INSAT-3D"; Str "SCATSAT-1"; Str "Oceansat-2"])
     else None).
Proof.
  cascade. repeat match goal with
           | |- context [if ?b then _ else _] => destruct b
           end; split; reflexivity.
Qed.

(** C6, as stated, fails: "tell me about the weather" matches no keyword,
    and the reply carries neither an intent nor a confidence; the name
    general_inquiry appears nowhere in it. *)
Lemma fallback_has_no_intent :
  mentionsProduct "tell me about the weather" = false /\
  mentionsDownload "tell me about the weather" = false /\
  mentionsPlace "tell me about the weather" = false /\
  field (simulateAIResponse 0 0 "tell me about the weather") "intent" = None /\
  field (simulateAIResponse 0 0 "tell me about the weather") "confidence" = None /\
  field (simulateAIResponse 0 0 "tell me about the weather") "intent" <>
    Some (Str "general_inquiry").
Proof.
  repeat split; try (vm_compute; reflexivity). vm_compute. discriminate.
Qed.

(** C6, amended: for every input text matching no rule keyword, the
    reply is the fallback: a bot message of no type whose body is the
    generic text echoing the query as typed and whose metadata is
    generalQuery = true with the four search areas; it carries no intent
    and no confidence.  The responder is total: every text, the empty one
    included, gets a bot reply with a metadata object. *)
Theorem fallback_reply (now today : Z) (q : string) :
  mentionsProduct q = false ->
  mentionsDownload q = false ->
  mentionsPlace q = false ->
  type (simulateAIResponse now today q) = None /\
  content (simulateAIResponse now today q) = generalContent q /\
  metadata (simulateAIResponse now today q) = Some generalMetadata /\
  field (simulateAIResponse now today q) "generalQuery" = Some (Bool true) /\
  field (simulateAIResponse now today q) "intent" = None /\
  field (simulateAIResponse now today q) "confidence" = None /\
  (forall q', sender (simulateAIResponse now today q') = bot /\
              exists o, metadata (simulateAIResponse now today q') = Some o) /\
  metadata (simulateAIResponse now today "") = Some generalMetadata.
Proof.
  intros Hp Hd Hg. cascade. rewrite Hp, Hd, Hg. repeat split.
  - repeat match goal with
           | |- context [if ?b then _ else _] => destruct b
           end; reflexivity.
  - repeat match goal with
           | |- context [if ?b then _ else _] => destruct b
           end; eexists; reflexivity.
Qed.

(** A question that matches no keyword. *)
Lemma fallback_reply_witness :
  mentionsProduct "tell me about the weather" = false /\
  mentionsDownload "tell me about the weather" = false /\
  mentionsPlace "tell me about the weather" = false /\
  type (simulateAIResponse 0 0 "tell me about the weather") = None /\
  content (simulateAIResponse 0 0 "tell me about the weather") =
    generalContent "tell me about the weather".
Proof.
  assert (Hp : mentionsProduct "tell me about the weather" = false)
    by (vm_compute; reflexivity).
  assert (Hd : mentionsDownload "tell me about the weather" = false)
    by (vm_compute; reflexivity).
  assert (Hg : mentionsPlace "tell me about the weather" = false)
    by (vm_compute; reflexivity).
  split; [exact Hp|]. split; [exact Hd|]. split; [exact Hg|].
  pose proof (fallback_reply 0 0 _ Hp Hd Hg) as H.
  split; [exact (proj1 H) | exact (proj1 (proj2 H))].
Defined.

(** C7: the classification is a function of the text alone.  Two calls
    on the same text, whatever the clock reads at each, return replies
    with the same intent, confidence, entities and body (type and
    content), and the same metadata throughout. *)
Theorem classification_deterministic (now today now' today' : Z) (q : string) :
  classification (simulateAIResponse now today q) =
    classification (simulateAIResponse now' today' q) /\
  metadata (simulateAIResponse now today q) =
    metadata (simulateAIResponse now' today' q) /\
  content (simulateAIResponse now today q) =
    content (simulateAIResponse now' today' q) /\
  type (simulateAIResponse now today q) =
    type (simulateAIResponse now' today' q).
Proof.
  cascade. repeat match goal with
           | |- context [if ?b then _ else _] => destruct b
           end; repeat split.
Qed.

End IntentClassifier.

(** ** Further facts about strings *)

Module StringFacts.
Import JS JSFacts JSString.

Lemma append_nil_r (s : string) : s ++ "" = s.
Proof.
  induction s as [|c s IH]; [reflexivity|].
  change (String c (s ++ "") = String c s). now rewrite IH.
Qed.

Lemma append_assoc (a b c : string) : (a ++ b) ++ c = a ++ (b ++ c).
Proof.
  induction a as [|x a IH]; [reflexivity|].
  change (String x ((a ++ b) ++ c) = String x (a ++ (b ++ c))). now rewrite IH.
Qed.

Lemma includes_refl (s : string) : includes s s = true.
Proof.
  apply includes_substring. exists "", "". simpl. now rewrite append_nil_r.
Qed.

Lemma includes_trans (a b c : string) :
  includes a b = true -> includes b c = true -> includes a c = true.
Proof.
  rewrite !includes_substring.
  intros [p [q ->]] [p' [q' ->]].
  exists (p ++ p'), (q' ++ q). now rewrite !append_assoc.
Qed.

Lemma includes_in_empty (t : string) : includes "" t = true -> t = "".
Proof. destruct t; [reflexivity | discriminate]. Qed.

Lemma toLowerCase_empty (t : string) : toLowerCase t = "" -> t = "".
Proof. destruct t; [reflexivity | discriminate]. Qed.

Lemma filter_sublist {A : Type} (f : A -> bool) (l : list A) :
  List.filter f l `sublist_of` l.
Proof.
  induction l as [|a l IH]; simpl; [constructor|].
  destruct (f a); [now apply sublist_skip | now apply sublist_cons].
Qed.

Lemma filter_sublist_implied {A : Type} (f g : A -> bool) (l : list A) :
  (forall a, f a = true -> g a = true) ->
  List.filter f l `sublist_of` List.filter g l.
Proof.
  intros H. induction l as [|a l IH]; simpl; [constructor|].
  destruct (f a) eqn:Hf.
  - rewrite (H a Hf). now apply sublist_skip.
  - destruct (g a); [now apply sublist_cons | exact IH].
Qed.



End StringFacts.

(** ** The knowledge-graph browser: what the user sees and can do *)

Module GraphBrowser.
Import JS JSFacts JSString StringFacts KnowledgeGraph SearchFacts GraphStoreFacts GraphView.

Lemma session_reachable (ns : list Node) (s : State) :
  session ns s -> reachable ns s.
Proof.
  induction 1 as [|[t|n] s _ IH _]; simpl.
  - apply reach_mount.
  - now apply reach_search.
  - now apply reach_select.
Qed.

(** X1: the nodes shown for any term are a subsequence of the catalog: search
    never reorders, repeats or invents a node. *)
Theorem search_sublist (ns : list Node) (s : State) (t : string) :
  reachable ns s -> search ns s t `sublist_of` ns.
Proof.
  intros Hs. rewrite (search_reachable ns s t Hs).
  destruct (truthy t); [apply filter_sublist | reflexivity].
Qed.

Lemma search_sublist_witness :
  reachable nodes (mount nodes) /\
  search nodes (mount nodes) "ocean" `sublist_of` nodes.
Proof.
  assert (H0 : reachable nodes (mount nodes)) by apply reach_mount.
  split; [exact H0 | exact (search_sublist nodes (mount nodes) "ocean" H0)].
Defined.

(** X2: typing more narrows the result: if the lowered term [t] occurs in the
    lowered term [t'], every node shown for [t'] is shown for [t], in the
    same order. *)
Theorem search_narrows (ns : list Node) (s s' : State) (t t' : string) :
  reachable ns s -> reachable ns s' ->
  includes (toLowerCase t') (toLowerCase t) = true ->
  search ns s' t' `sublist_of` search ns s t.
Proof.
  intros Hs Hs' Hinc.
  rewrite (search_reachable ns s t Hs), (search_reachable ns s' t' Hs').
  destruct t as [|c t]; simpl truthy; cbv iota.
  - destruct (truthy t'); [apply filter_sublist | reflexivity].
  - destruct t' as [|c' t']; simpl truthy; cbv iota.
    + apply includes_in_empty in Hinc. discriminate Hinc.
    + unfold filterNodes. apply filter_sublist_implied.
      intros n. rewrite !orb_true_iff.
      intros [H|H]; [left|right]; exact (includes_trans _ _ _ H Hinc).
Qed.

Lemma search_narrows_witness :
  reachable nodes (mount nodes) /\
  includes (toLowerCase "Oceansat") (toLowerCase "OCEAN") = true /\
  search nodes (mount nodes) "Oceansat" `sublist_of` search nodes (mount nodes) "OCEAN" /\
  map id (search nodes (mount nodes) "Oceansat") = ["oceansat2"] /\
  map id (search nodes (mount nodes) "OCEAN") = ["oceansat2"; "indian_ocean"].
Proof.
  assert (H0 : reachable nodes (mount nodes)) by apply reach_mount.
  assert (H1 : includes (toLowerCase "Oceansat") (toLowerCase "OCEAN") = true)
    by reflexivity.
  split; [exact H0|]. split; [exact H1|].
  split; [exact (search_narrows nodes _ _ "OCEAN" "Oceansat" H0 H0 H1)|].
  split; reflexivity.
Defined.

(** X3: a node is always found by its own label and by its own type name,
    however they are cased in the catalog. *)
Theorem search_finds_own_label (ns : list Node) (s : State) (n : Node) :
  reachable ns s -> In n ns ->
  In n (search ns s (label n)) /\ In n (search ns s (type_name (type n))).
Proof.
  intros Hs Hn.
  rewrite (search_reachable ns s (label n) Hs),
          (search_reachable ns s (type_name (type n)) Hs).
  split.
  - destruct (truthy (label n)); [|exact Hn].
    apply filter_In. split; [exact Hn|]. now rewrite includes_refl.
  - destruct (truthy (type_name (type n))); [|exact Hn].
    apply filter_In. split; [exact Hn|].
    rewrite (includes_refl (toLowerCase (type_name (type n)))).
    apply orb_true_r.
Qed.

Lemma search_finds_own_label_witness :
  exists n,
    findNode nodes "api_doc" = Some n /\
    reachable nodes (mount nodes) /\
    In n nodes /\
    In n (search nodes (mount nodes) (label n)) /\
    In n (search nodes (mount nodes) (type_name (type n))).
Proof.
  eexists. split; [reflexivity|].
  match goal with |- _ /\ In ?m _ /\ _ => pose (n := m) end.
  assert (H0 : reachable nodes (mount nodes)) by apply reach_mount.
  assert (H1 : In n nodes) by (simpl; tauto).
  split; [exact H0|]. split; [exact H1|].
  exact (search_finds_own_label nodes (mount nodes) n H0 H1).
Defined.

End GraphBrowser.

(** ** The knowledge-graph browser: selection, edge layer, cards *)

Module GraphDetails.
Import JS JSFacts JSString StringFacts KnowledgeGraph SearchFacts GraphStoreFacts GraphView.
Import GraphBrowser.

Lemma setSearchTerm_selectedNode (ns : list Node) (t : string) (s : State) :
  selectedNode (setSearchTerm ns t s) = selectedNode s.
Proof.
  unfold setSearchTerm. now destruct (String.eqb t (searchTerm s)).
Qed.

Lemma visibleNodes_In (ns : list Node) (s : State) (n : Node) :
  reachable ns s -> In n (visibleNodes ns s) -> In n ns.
Proof.
  intros Hs. unfold visibleNodes. destruct (truthy (searchTerm s)); [|tauto].
  rewrite (reachable_filtered ns s Hs). unfold filterNodes.
  rewrite filter_In. tauto.
Qed.

(** X4: the selection is the node of the last click, whatever was typed in
    the search box before or after; with no click it is what it was.  No
    handler clears it: once a node is selected, one stays selected. *)
Theorem selection_follows_clicks (ns : list Node) (events : list Event) (s : State) :
  selectedNode (run ns events s) =
    match lastClick events with
    | Some n => Some n
    | None => selectedNode s
    end /\
  (selectedNode s <> None -> selectedNode (run ns events s) <> None).
Proof.
  assert (H : forall evs st,
             selectedNode (run ns evs st) =
             match lastClick evs with Some n => Some n | None => selectedNode st end).
  { induction evs as [|e evs IH]; intros st; [reflexivity|].
    change (run ns (e :: evs) st) with (run ns evs (handle ns e st)).
    rewrite IH. simpl. destruct (lastClick evs); [reflexivity|].
    destruct e as [t|n]; simpl; [apply setSearchTerm_selectedNode | reflexivity]. }
  split; [apply H|].
  intros Hsel. rewrite H. destruct (lastClick events); [discriminate | exact Hsel].
Qed.

(** X5: the selected node, if any, is a node of the catalog: a circle has to
    be drawn to be clicked, and only catalog nodes are drawn.  A search
    that hides the node afterwards leaves it selected. *)
Theorem selected_node_in_catalog (ns : list Node) (s : State) (n : Node) :
  session ns s -> selectedNode s = Some n ->
  In n ns /\ forall t, selectedNode (setSearchTerm ns t s) = Some n.
Proof.
  intros Hs Hsel. split; [|intros t; now rewrite setSearchTerm_selectedNode].
  revert n Hsel. induction Hs as [|[t|m] s Hs IH Hen]; intros n Hsel.
  - discriminate Hsel.
  - simpl in Hsel. rewrite setSearchTerm_selectedNode in Hsel. now apply IH.
  - simpl in Hsel, Hen. injection Hsel as <-.
    exact (visibleNodes_In ns s m (session_reachable ns s Hs) Hen).
Qed.

Lemma selected_node_in_catalog_witness :
  exists n,
    findNode nodes "faq" = Some n /\
    session nodes (handle nodes (Click n) (mount nodes)) /\
    selectedNode (handle nodes (Click n) (mount nodes)) = Some n /\
    In n nodes /\
    selectedNode (setSearchTerm nodes "ocean" (handle nodes (Click n) (mount nodes))) =
      Some n /\
    ~ In n (visibleNodes nodes
              (setSearchTerm nodes "ocean" (handle nodes (Click n) (mount nodes)))).
Proof.
  eexists. split; [reflexivity|].
  match goal with |- session _ (handle _ (Click ?m) _) /\ _ => pose (n := m) end.
  assert (Hin : In n nodes) by (simpl; tauto).
  assert (H0 : session nodes (handle nodes (Click n) (mount nodes))).
  { apply session_step; [apply session_mount | exact Hin]. }
  assert (H1 : selectedNode (handle nodes (Click n) (mount nodes)) = Some n)
    by reflexivity.
  destruct (selected_node_in_catalog nodes _ n H0 H1) as [Ha Hb].
  split; [exact H0|]. split; [exact H1|]. split; [exact Ha|].
  split; [exact (Hb "ocean")|].
  intros H. vm_compute in H.
  repeat (destruct H as [H|H]; [discriminate H|]). exact H.
Defined.

(** X6: a drawn edge joins the centres of the circles of its two nodes: for
    an edge whose ends resolve, the line runs from the centre of the
    circle of the node found for [from] to that of the node found for
    [to]; it carries its position in the edge list as key and is dashed
    exactly when the edge is of type related. *)
Theorem edge_joins_circle_centres
    (ns : list Node) (es : list Edge) (i : nat) (e : Edge) (a b : Node) :
  es !! i = Some e ->
  findNode ns (from e) = Some a ->
  findNode ns (to e) = Some b ->
  exists line,
    renderEdges ns es !! i = Some (Some line) /\
    x1 line = cx (renderNode a) /\ y1 line = cy (renderNode a) /\
    x2 line = cx (renderNode b) /\ y2 line = cy (renderNode b) /\
    key line = i /\
    (strokeDasharray line = "5,5" <-> edge_type e = related) /\
    (strokeDasharray line = "none" <-> edge_type e <> related).
Proof.
  intros He Ha Hb. unfold renderEdges.
  rewrite list_lookup_imap, He. simpl. unfold renderEdge. rewrite Ha, Hb.
  eexists. split; [reflexivity|]. simpl. repeat split; try reflexivity;
    destruct (edge_type e); simpl; intros H; try discriminate H;
    try reflexivity; try (intros H'; discriminate H'); try (now exfalso; apply H).
Qed.

Lemma edge_joins_circle_centres_witness :
  exists e a b line,
    edges !! 5 = Some e /\
    findNode nodes (from e) = Some a /\
    findNode nodes (to e) = Some b /\
    renderEdges nodes edges !! 5 = Some (Some line) /\
    (x1 line, y1 line) = (cx (renderNode a), cy (renderNode a)) /\
    (x2 line, y2 line) = (cx (renderNode b), cy (renderNode b)) /\
    strokeDasharray line = "5,5".
Proof.
  destruct (edges !! 5) as [e|] eqn:He; [|discriminate He].
  destruct (findNode nodes (from e)) as [a|] eqn:Ha;
    [|injection He as <-; discriminate Ha].
  destruct (findNode nodes (to e)) as [b|] eqn:Hb;
    [|injection He as <-; discriminate Hb].
  destruct (edge_joins_circle_centres nodes edges 5 e a b He Ha Hb)
    as [line [H0 [H1 [H2 [H3 [H4 [_ [H5 _]]]]]]]].
  exists e, a, b, line.
  split; [reflexivity|]. split; [exact Ha|]. split; [exact Hb|].
  split; [exact H0|]. split; [now rewrite H1, H2|]. split; [now rewrite H3, H4|].
  apply H5. injection He as <-. reflexivity.
Defined.

(** X7: node types can be told apart by colour and by icon: two types with
    the same colour classes, or the same icon, are the same type; a string
    that names no type gets the grey classes and the network icon, which
    no type has. *)
Theorem node_colours_distinct :
  (forall t1 t2 : NodeType,
      getNodeColor (type_name t1) = getNodeColor (type_name t2) -> t1 = t2) /\
  (forall t1 t2 : NodeType,
      getNodeIcon (type_name t1) = getNodeIcon (type_name t2) -> t1 = t2) /\
  (forall s : string,
      (forall t, type_name t <> s) ->
      getNodeColor s = "bg-gray-500 border-gray-400" /\ getNodeIcon s = Network) /\
  (forall t : NodeType,
      getNodeColor (type_name t) <> "bg-gray-500 border-gray-400" /\
      getNodeIcon (type_name t) <> Network).
Proof.
  split; [intros [] []; simpl; intros H; try reflexivity; discriminate H|].
  split; [intros [] []; simpl; intros H; try reflexivity; discriminate H|].
  split.
  - intros s Hs. unfold getNodeColor, getNodeIcon.
    destruct (String.eqb_spec s "mission") as [->|_]; [now destruct (Hs mission)|].
    destruct (String.eqb_spec s "product") as [->|_]; [now destruct (Hs product)|].
    destruct (String.eqb_spec s "document") as [->|_]; [now destruct (Hs document)|].
    destruct (String.eqb_spec s "location") as [->|_]; [now destruct (Hs location)|].
    destruct (String.eqb_spec s "user") as [->|_]; [now destruct (Hs user)|].
    destruct (String.eqb_spec s "process") as [->|_]; [now destruct (Hs process)|].
    split; reflexivity.
  - intros []; split; simpl; discriminate.
Qed.


(** X9: the caption of a metadata row replaces only the first underscore of
    the key by a space: the length is kept, a key without underscore is
    unchanged, and otherwise exactly one underscore becomes a space.  The
    card has one row per property. *)
Theorem metadataKey_first_underscore (key : string) (sel : Node) :
  String.length (metadataKey key) = String.length key /\
  (occurrences "_" key = 0 -> metadataKey key = key) /\
  (occurrences "_" key <> 0 ->
     S (occurrences "_" (metadataKey key)) = occurrences "_" key /\
     occurrences " " (metadataKey key) = S (occurrences " " key)) /\
  metadataKey "a_b_c" = "a b_c" /\
  length (metadataRows sel) = length (metadata sel).
Proof.
  unfold metadataKey, metadataRows.
  split; [|split; [|split; [|split; [reflexivity | apply length_map]]]].
  - induction key as [|c k IH]; simpl; [reflexivity|].
    destruct (Ascii.eqb c "_"); simpl; congruence.
  - induction key as [|c k IH]; simpl; [reflexivity|].
    destruct (Ascii.eqb c "_"); simpl; [discriminate|].
    intros H. now rewrite IH.
  - induction key as [|c k IH]; [simpl; congruence|].
    destruct (Ascii.eqb_spec c "_") as [->|Hc].
    + intros _. split; reflexivity.
    + pose proof (proj2 (Ascii.eqb_neq c "_") Hc) as E.
      simpl. rewrite E. simpl. rewrite E. simpl.
      intros H. destruct (IH H) as [IH1 IH2]. split; [exact IH1|].
      rewrite IH2. now destruct (Ascii.eqb c " ").
Qed.

End GraphDetails.

(** ** The chat window: sending and replying *)

Module ChatFacts.
Import JS JSFacts JSString StringFacts ChatInterface ChatSession.

Lemma trimEnd_empty (s : string) : trimEnd s = "" <-> blank s = true.
Proof.
  induction s as [|c s IH]; simpl; [tauto|].
  destruct (trimEnd s) as [|d r].
  - destruct (isWhiteSpace c); simpl.
    + rewrite <- IH. tauto.
    + split; discriminate.
  - split; [discriminate|].
    rewrite andb_true_iff. intros [_ H]. apply IH in H. discriminate H.
Qed.

Lemma trimStart_blank (s : string) : blank (trimStart s) = blank s.
Proof.
  induction s as [|c s IH]; simpl; [reflexivity|].
  destruct (isWhiteSpace c) eqn:Hc; simpl; [exact IH | now rewrite Hc].
Qed.

(** [trim] leaves nothing exactly of the strings of white space. *)
Lemma trim_truthy (s : string) : truthy (trim s) = negb (blank s).
Proof.
  unfold trim. rewrite <- (trimStart_blank s).
  destruct (trimEnd (trimStart s)) as [|c r] eqn:E.
  - apply trimEnd_empty in E. now rewrite E.
  - destruct (blank (trimStart s)) eqn:B; [|reflexivity].
    apply trimEnd_empty in B. congruence.
Qed.

Lemma reply_sender (now today : Z) (q : string) :
  sender (simulateAIResponse now today q) = bot.
Proof.
  unfold simulateAIResponse.
  repeat match goal with
         | |- context [if ?b then _ else _] => destruct b
         end; reflexivity.
Qed.

Lemma handleSendMessage_blank (now today : Z) (s : ChatState) :
  blank (inputValue s) = true -> handleSendMessage now today s = s.
Proof.
  intros H. unfold handleSendMessage. now rewrite trim_truthy, H.
Qed.

Lemma handleSendMessage_sends (now today : Z) (s : ChatState) :
  blank (inputValue s) = false ->
  handleSendMessage now today s =
    {| messages := (messages s ++ [userMessage now today (inputValue s)])%list;
       inputValue := "";
       isTyping := true;
       pending := (pending s ++ [inputValue s])%list |}.
Proof.
  intros H. unfold handleSendMessage. now rewrite trim_truthy, H.
Qed.

End ChatFacts.

Module ChatWindow.
Import JS JSFacts JSString StringFacts ChatInterface ChatSession ChatFacts.





End ChatWindow.

(** ** The chat window: whole conversations *)

Module Conversation.
Import JS JSFacts JSString StringFacts ChatInterface ChatSession ChatFacts.

Lemma combine_app_r {A B : Type} (l : list A) (u v : list B) :
  length l <= length u -> combine l (u ++ v) = combine l u.
Proof.
  revert u; induction l as [|a l IH]; intros [|b u] H; simpl in *;
    try reflexivity; try lia.
  f_equal. apply IH. lia.
Qed.

Lemma skipn_app_le {A : Type} (n : nat) (u v : list A) :
  n <= length u -> skipn n (u ++ v) = (skipn n u ++ v)%list.
Proof.
  revert u; induction n as [|n IH]; intros [|b u] H; simpl in *;
    try reflexivity; try lia.
  apply IH. lia.
Qed.

Lemma combine_next {A B : Type} (l : list A) (a : A) (u : list B)
    (q : B) (rest : list B) :
  skipn (length l) u = q :: rest ->
  combine (l ++ [a]) u = (combine l u ++ [(a, q)])%list /\
  skipn (length (l ++ [a])) u = rest.
Proof.
  revert u; induction l as [|x l IH]; intros u H.
  - change (u = q :: rest) in H. subst u. split; reflexivity.
  - destruct u as [|b u]; [discriminate H|].
    change (skipn (length l) u = q :: rest) in H.
    destruct (IH u H) as [H1 H2].
    change (combine ((x :: l) ++ [a]) (b :: u))
      with ((x, b) :: combine (l ++ [a]) u).
    rewrite H1. split; [reflexivity | exact H2].
Qed.

Lemma userTexts_user (l : list Message) (now today : Z) (t : string) :
  userTexts (l ++ [userMessage now today t]) = (userTexts l ++ [t])%list /\
  botMessages (l ++ [userMessage now today t]) = botMessages l.
Proof.
  unfold userTexts, botMessages. rewrite !List.filter_app, List.map_app. simpl.
  split; [reflexivity | apply app_nil_r].
Qed.

Lemma userTexts_reply (l : list Message) (now today : Z) (q : string) :
  userTexts (l ++ [simulateAIResponse now today q]) = userTexts l /\
  botMessages (l ++ [simulateAIResponse now today q]) =
    (botMessages l ++ [simulateAIResponse now today q])%list.
Proof.
  unfold userTexts, botMessages, fromUser. rewrite !List.filter_app, List.map_app. simpl.
  rewrite reply_sender. simpl. split; [apply app_nil_r | reflexivity].
Qed.

Lemma send_in_order (start now today : Z) (clocks : list (Z * Z)) (s : ChatState) :
  answeredInOrder start clocks s ->
  answeredInOrder start clocks (handleSendMessage now today s).
Proof.
  intros [Hb [Hp Hn]]. destruct (blank (inputValue s)) eqn:B.
  - rewrite (handleSendMessage_blank now today s B). now repeat split.
  - rewrite (handleSendMessage_sends now today s B). unfold answeredInOrder. simpl.
    destruct (userTexts_user (messages s) now today (inputValue s)) as [-> ->].
    rewrite combine_app_r, skipn_app_le by lia.
    rewrite <- Hp, !length_app. simpl. repeat split; [exact Hb | lia].
Qed.

Lemma timeout_in_order (start now today : Z) (clocks : list (Z * Z)) (s : ChatState) :
  answeredInOrder start clocks s ->
  exists clocks', answeredInOrder start clocks' (timeout now today s).
Proof.
  intros [Hb [Hp Hn]]. unfold timeout.
  destruct (pending s) as [|q rest] eqn:E.
  - exists clocks. unfold answeredInOrder. rewrite E. now repeat split.
  - exists (clocks ++ [(now, today)])%list. unfold answeredInOrder. simpl.
    destruct (userTexts_reply (messages s) now today q) as [-> ->].
    destruct (combine_next clocks (now, today) _ q rest (eq_sym Hp)) as [-> H2].
    rewrite Hb, map_app, H2. simpl in *. rewrite length_app. simpl.
    repeat split. lia.
Qed.

Lemma step_in_order (start : Z) (clocks : list (Z * Z)) (s : ChatState) (e : ChatEvent) :
  answeredInOrder start clocks s ->
  exists clocks', answeredInOrder start clocks' (chatStep s e).
Proof.
  intros H. destruct e as [t|key shiftKey now today|now today|now today]; simpl.
  - exists clocks. exact H.
  - exists clocks. unfold handleKeyPress.
    destruct (String.eqb key "Enter" && negb shiftKey); [now apply send_in_order | exact H].
  - exists clocks. unfold clickSend.
    destruct (sendDisabled s); [exact H | now apply send_in_order].
  - now apply timeout_in_order with (clocks := clocks).
Qed.

Lemma step_grows (s : ChatState) (e : ChatEvent) :
  exists more, messages (chatStep s e) = (messages s ++ more)%list.
Proof.
  assert (Hsend : forall now today,
             exists more, messages (handleSendMessage now today s) = (messages s ++ more)%list).
  { intros now today. unfold handleSendMessage.
    destruct (negb (truthy (trim (inputValue s)))); simpl;
      [exists []; now rewrite app_nil_r | eexists; reflexivity]. }
  destruct e as [t|key shiftKey now today|now today|now today]; simpl.
  - exists []. now rewrite app_nil_r.
  - unfold handleKeyPress. destruct (String.eqb key "Enter" && negb shiftKey);
      [apply Hsend | exists []; now rewrite app_nil_r].
  - unfold clickSend. destruct (sendDisabled s);
      [exists []; now rewrite app_nil_r | apply Hsend].
  - unfold timeout. destruct (pending s); simpl;
      [exists []; now rewrite app_nil_r | eexists; reflexivity].
Qed.

Lemma step_typing (s : ChatState) (e : ChatEvent) :
  (isTyping s = true -> pending s <> []) ->
  isTyping (chatStep s e) = true -> pending (chatStep s e) <> [].
Proof.
  intros H.
  assert (Hsend : forall now today,
             isTyping (handleSendMessage now today s) = true ->
             pending (handleSendMessage now today s) <> []).
  { intros now today. unfold handleSendMessage.
    destruct (negb (truthy (trim (inputValue s)))); simpl; [exact H|].
    intros _ E. now destruct (pending s). }
  destruct e as [t|key shiftKey now today|now today|now today]; simpl.
  - exact H.
  - unfold handleKeyPress. destruct (String.eqb key "Enter" && negb shiftKey);
      [apply Hsend | exact H].
  - unfold clickSend. destruct (sendDisabled s); [exact H | apply Hsend].
  - unfold timeout. destruct (pending s) eqn:E; simpl; [now rewrite E | discriminate].
Qed.

(** X12: questions are answered in order.  After any sequence of typing, key
    presses, button clicks and timers, the bot's messages are the
    greeting followed by one reply per answered user text, built from
    that text as typed and in the order the texts were sent; the texts
    still awaited are exactly the user texts not yet answered. *)
Theorem replies_in_order (start : Z) (events : list ChatEvent) :
  exists clocks, answeredInOrder start clocks (chatRun events (init start)).
Proof.
  assert (H : forall evs s clocks,
             answeredInOrder start clocks s ->
             exists clocks', answeredInOrder start clocks' (chatRun evs s)).
  { induction evs as [|e evs IH]; intros s clocks Hs; [now exists clocks|].
    destruct (step_in_order start clocks s e Hs) as [clocks' Hs'].
    exact (IH _ clocks' Hs'). }
  apply (H events (init start) []). now repeat split.
Qed.

(** X13: the conversation only grows: no handler removes or rewrites a
    message, so what was shown stays shown, in place, and a conversation
    always opens with the greeting. *)
Theorem conversation_only_grows (start : Z) (events : list ChatEvent) (s : ChatState) :
  (exists more, messages (chatRun events s) = (messages s ++ more)%list) /\
  (exists rest, messages (chatRun events (init start)) = greeting start :: rest).
Proof.
  assert (H : forall evs st,
             exists more, messages (chatRun evs st) = (messages st ++ more)%list).
  { induction evs as [|e evs IH]; intros st; [exists []; now rewrite app_nil_r|].
    destruct (step_grows st e) as [m1 H1].
    destruct (IH (chatStep st e)) as [m2 H2].
    exists (m1 ++ m2)%list. simpl. change (fold_left chatStep evs (chatStep st e))
      with (chatRun evs (chatStep st e)). now rewrite H2, H1, app_assoc. }
  split; [apply H|].
  destruct (H events (init start)) as [more Hm]. exists more. exact Hm.
Qed.

(** X14: the typing indicator is on only while a reply is awaited; the
    converse fails: when two or more replies are awaited, the first timer
    to run switches the indicator off although replies are still due. *)
Theorem typing_implies_pending (start : Z) (events : list ChatEvent) :
  (isTyping (chatRun events (init start)) = true ->
   pending (chatRun events (init start)) <> []) /\
  (forall now today,
      2 <= length (pending (chatRun events (init start))) ->
      isTyping (timeout now today (chatRun events (init start))) = false /\
      pending (timeout now today (chatRun events (init start))) <> []).
Proof.
  assert (H : forall evs s,
             (isTyping s = true -> pending s <> []) ->
             isTyping (chatRun evs s) = true -> pending (chatRun evs s) <> []).
  { induction evs as [|e evs IH]; intros s Hs; [exact Hs|].
    apply (IH (chatStep s e)). now apply step_typing. }
  split; [apply H; discriminate|].
  intros now today Hlen. unfold timeout.
  destruct (pending (chatRun events (init start))) as [|q [|q' rest]];
    simpl in *; try lia. split; [reflexivity | discriminate].
Qed.

Lemma typing_implies_pending_witness :
  length (pending (chatRun [Typed "a"; KeyPress "Enter" false 1 1;
                            Typed "b"; KeyPress "Enter" false 2 2] (init 0))) = 2 /\
  isTyping (timeout 3 3
              (chatRun [Typed "a"; KeyPress "Enter" false 1 1;
                        Typed "b"; KeyPress "Enter" false 2 2] (init 0))) = false /\
  pending (timeout 3 3
             (chatRun [Typed "a"; KeyPress "Enter" false 1 1;
                       Typed "b"; KeyPress "Enter" false 2 2] (init 0))) <> [].
Proof.
  split; [reflexivity|].
  apply (proj2 (typing_implies_pending 0
                  [Typed "a"; KeyPress "Enter" false 1 1;
                   Typed "b"; KeyPress "Enter" false 2 2])).
  apply le_n.
Defined.



End Conversation.

(** ** The chat responder: what does not change the reply *)

Module ReplyFacts.
Import JS JSFacts JSString StringFacts ChatInterface ChatSession ChatFacts.











End ReplyFacts.

Module Replies.
Import JS JSFacts JSString StringFacts ChatInterface ChatSession ChatFacts ReplyFacts.



(** X17: the case of the letters never changes which reply is chosen: two
    queries that differ only in case get the same type and metadata, and
    the same body unless the reply is the fallback (which echoes each
    query as typed). *)
Theorem reply_ignores_case (now today : Z) (q q' : string) :
  case_variant q q' ->
  type (simulateAIResponse now today q) = type (simulateAIResponse now today q') /\
  metadata (simulateAIResponse now today q) = metadata (simulateAIResponse now today q') /\
  (type (simulateAIResponse now today q) <> None ->
   content (simulateAIResponse now today q) = content (simulateAIResponse now today q')).
Proof.
  intros H. apply case_variant_toLowerCase in H.
  unfold simulateAIResponse. cbv zeta. rewrite H.
  repeat match goal with
         | |- context [if ?b then _ else _] => destruct b
         end; simpl; repeat split; try reflexivity; intros H'; now destruct H'.
Qed.

Lemma reply_ignores_case_witness :
  case_variant "HOW DO I ACCESS IT" "how do i access it" /\
  type (simulateAIResponse 0 0 "HOW DO I ACCESS IT") =
    type (simulateAIResponse 0 0 "how do i access it") /\
  type (simulateAIResponse 0 0 "HOW DO I ACCESS IT") = Some document.
Proof.
  assert (H : case_variant "HOW DO I ACCESS IT" "how do i access it")
    by (apply case_variant_toLowerCase; reflexivity).
  split; [exact H|].
  split; [exact (proj1 (reply_ignores_case 0 0 _ _ H)) | reflexivity].
Defined.

(** X18: the bubble tells the reply apart: two replies have the same colour,
    and the same icon, exactly when they are of the same type; no reply
    is drawn in the user's blue or with the user's icon, which every user
    message gets; the greeting is drawn like the fallback. *)
Theorem bubble_identifies_reply (now today now' today' : Z) (q q' t : string) :
  (getMessageBgColor (simulateAIResponse now today q) =
     getMessageBgColor (simulateAIResponse now' today' q') <->
   type (simulateAIResponse now today q) = type (simulateAIResponse now' today' q')) /\
  (getMessageIcon (simulateAIResponse now today q) =
     getMessageIcon (simulateAIResponse now' today' q') <->
   type (simulateAIResponse now today q) = type (simulateAIResponse now' today' q')) /\
  getMessageBgColor (simulateAIResponse now today q) <> "bg-blue-600" /\
  getMessageIcon (simulateAIResponse now today q) <> UserIcon /\
  getMessageBgColor (userMessage now today t) = "bg-blue-600" /\
  getMessageIcon (userMessage now today t) = UserIcon /\
  getMessageBgColor (greeting now) = "bg-teal-600" /\
  getMessageIcon (greeting now) = BotIcon.
Proof.
  unfold simulateAIResponse. cbv zeta.
  repeat match goal with
         | |- context [if ?b then _ else _] => destruct b
         end; simpl; repeat split; try reflexivity;
    intros H; try discriminate H; reflexivity.
Qed.

End Replies.

(** ** The content manager and the tab bar *)

Module ContentTable.
Import JS JSFacts JSString StringFacts ContentManager.

Lemma filter_filter {A : Type} (f g : A -> bool) (l : list A) :
  List.filter f (List.filter g l) = List.filter (fun a => g a && f a) l.
Proof.
  induction l as [|a l IH]; simpl; [reflexivity|].
  destruct (g a); simpl; [|exact IH]. destruct (f a); now rewrite IH.
Qed.

Lemma filter_ext_eq {A : Type} (f g : A -> bool) (l : list A) :
  (forall a, f a = g a) -> List.filter f l = List.filter g l.
Proof.
  intros H. induction l as [|a l IH]; simpl; [reflexivity|].
  rewrite H, IH. reflexivity.
Qed.

Lemma filter_all {A : Type} (f : A -> bool) (l : list A) :
  (forall a, f a = true) -> List.filter f l = l.
Proof.
  intros H. induction l as [|a l IH]; simpl; [reflexivity|].
  now rewrite H, IH.
Qed.

Lemma filter_none {A : Type} (f : A -> bool) (l : list A) :
  (forall a, f a = false) -> List.filter f l = [].
Proof.
  intros H. induction l as [|a l IH]; simpl; [reflexivity|].
  now rewrite H.
Qed.

(** X19: with an empty search box and the select on "all" the table lists
    every item; with any term and any status value it lists a
    subsequence of the items, in their order. *)
Theorem filteredItems_sublist (items : list ContentItem) (term status : string) :
  filteredItems items "" "all" = items /\
  filteredItems items term status `sublist_of` items.
Proof.
  split; [|apply filter_sublist].
  unfold filteredItems. cbv zeta. apply filter_all.
  intros a. change (toLowerCase "") with "". now rewrite includes_empty.
Qed.

(** X20: the two filters are independent and commute: filtering by term and
    status at once is filtering by status what the term alone leaves,
    and is filtering by term what the status alone leaves.  The term is
    compared without regard to case. *)
Theorem filteredItems_compose (items : list ContentItem) (term term' status : string) :
  filteredItems items term status =
    filteredItems (filteredItems items term "all") "" status /\
  filteredItems items term status =
    filteredItems (filteredItems items "" status) term "all" /\
  (case_variant term term' ->
   filteredItems items term status = filteredItems items term' status).
Proof.
  unfold filteredItems. cbv zeta. rewrite !filter_filter. repeat split.
  - apply filter_ext_eq. intros a. simpl toLowerCase.
    rewrite !includes_empty. simpl.
    now rewrite andb_true_r.
  - apply filter_ext_eq. intros a. simpl toLowerCase.
    rewrite !includes_empty. simpl. rewrite andb_true_r. apply andb_comm.
  - intros H. apply case_variant_toLowerCase in H. now rewrite H.
Qed.

(** X21: the status filter is exact and case-sensitive: every row shown has
    the selected status unless the select is on "all"; a value that is
    neither "all" nor the name of a status empties the table. *)
Theorem status_filter_exact (items : list ContentItem) (term status : string) :
  (forall item,
      In item (filteredItems items term status) ->
      status = "all" \/ status_name (ContentManager.status item) = status) /\
  (status <> "all" ->
   (forall st, status_name st <> status) ->
   filteredItems items term status = []) /\
  filteredItems contentItems "" "Processed" = [] /\
  map id (filteredItems contentItems "" "processed") = ["1"; "2"; "4"].
Proof.
  unfold filteredItems. cbv zeta. repeat split.
  - intros item H. apply filter_In in H as [_ H].
    apply andb_true_iff in H as [_ H].
    apply orb_true_iff in H as [H|H]; apply String.eqb_eq in H; auto.
  - intros Hall Hnone. apply filter_none. intros a.
    rewrite (proj2 (String.eqb_neq status "all") Hall).
    rewrite (proj2 (String.eqb_neq _ status) (Hnone (ContentManager.status a))).
    apply andb_false_r.
Qed.

(** X22: the icon of a status and its text share one colour: for every
    status string, the class of the icon is the size classes followed by
    the colour class of the text (and, while processing, the spin). *)
Theorem status_colours_agree (status : string) :
  snd (getStatusIcon status) =
    "h-4 w-4 " ++ statusTextColor status ++
    (if String.eqb status "processing" then " animate-spin" else "") /\
  (forall st, In (statusTextColor (status_name st))
                 ["text-green-400"; "text-blue-400"; "text-red-400"; "text-gray-400"]) /\
  statusTextColor "pending" = statusTextColor "anything else".
Proof.
  split; [|split; [intros []; simpl; tauto | reflexivity]].
  unfold getStatusIcon, statusTextColor.
  destruct (String.eqb_spec status "processed") as [->|_]; [reflexivity|].
  destruct (String.eqb status "processing"); [reflexivity|].
  destruct (String.eqb status "error"); reflexivity.
Qed.

End ContentTable.

Module TabBar.
Import App.

Lemma reachableTab_In (a : string) :
  reachableTab a -> exists tab, In tab tabs /\ id tab = a.
Proof.
  intros [|tab b _ Htab].
  - eexists. split; [left; reflexivity | reflexivity].
  - now exists tab.
Qed.

(** X23: the active tab is always one of the bar's tabs: whatever is clicked,
    exactly one button is highlighted, the page shown is the one of that
    tab (distinct tabs show distinct pages), and the default branch of the
    page switch, which any other string would take, is never needed. *)
Theorem active_tab_valid (a b : string) :
  reachableTab a -> reachableTab b ->
  (exists tab, In tab tabs /\ id tab = a) /\
  length (List.filter (highlighted a) tabs) = 1 /\
  (renderContent a = renderContent b -> a = b) /\
  (forall other, (forall tab, In tab tabs -> id tab <> other) ->
                 renderContent other = ChatInterface).
Proof.
  intros Ha Hb.
  destruct (reachableTab_In a Ha) as [ta [Hta Ea]].
  destruct (reachableTab_In b Hb) as [tb [Htb Eb]].
  split; [now exists ta|]. subst a b.
  split; [|split].
  - simpl in Hta. repeat (destruct Hta as [<-|Hta]; [reflexivity|]). contradiction.
  - simpl in Hta, Htb.
    repeat (destruct Hta as [<-|Hta]; [|]);
      repeat (destruct Htb as [<-|Htb]; [|]);
      try contradiction; simpl; intros H; try reflexivity; discriminate H.
  - intros other Hother. unfold renderContent.
    destruct (String.eqb_spec other "chat") as [->|_]; [reflexivity|].
    destruct (String.eqb_spec other "knowledge") as [->|_];
      [exfalso; apply (Hother (Build_Tab "knowledge" "Knowledge Graph" Network));
       [simpl; tauto | reflexivity]|].
    destruct (String.eqb_spec other "dashboard") as [->|_];
      [exfalso; apply (Hother (Build_Tab "dashboard" "Analytics" BarChart3));
       [simpl; tauto | reflexivity]|].
    destruct (String.eqb_spec other "content") as [->|_];
      [exfalso; apply (Hother (Build_Tab "content" "Content Manager" Settings));
       [simpl; tauto | reflexivity]|].
    reflexivity.
Qed.

Lemma active_tab_valid_witness :
  reachableTab "dashboard" /\
  reachableTab "content" /\
  length (List.filter (highlighted "dashboard") tabs) = 1 /\
  renderContent "dashboard" = Dashboard.
Proof.
  assert (Ha : reachableTab "dashboard").
  { apply (tab_click (Build_Tab "dashboard" "Analytics" BarChart3) initialTab);
      [apply tab_initial | simpl; tauto]. }
  assert (Hb : reachableTab "content").
  { apply (tab_click (Build_Tab "content" "Content Manager" Settings) "dashboard");
      [exact Ha | simpl; tauto]. }
  split; [exact Ha|]. split; [exact Hb|].
  split; [exact (proj1 (proj2 (active_tab_valid _ _ Ha Hb))) | reflexivity].
Defined.

End TabBar.
